(** * MEVBoostAccount: a shallow embedding of [src/mevboostAccount.ts]

    The builder class [MEVBoostAccount] is embedded with explicit state
    passing.  Everything that reaches the network (the signer, the entry
    point, the paymaster's event log, the clock and timers) goes through a
    [World] that carries the wall clock and the chronological list of the
    requests issued; the answers come from an [Env] of collaborators. *)

From Stdlib Require Import ZArith NArith List String Ascii Bool Lia.
Import ListNotations.

Set Warnings "-register-all".

#[local] Open Scope string_scope.
#[local] Open Scope Z_scope.

(** ** JavaScript values and thrown errors *)

(** The values [error?.errorArgs?.sender] can evaluate to: the field of an
    ABI-decoded error is a string, a missing field or a missing object
    gives [undefined]. *)
Inductive JsValue : Type :=
| JsUndefined
| JsNull
| JsString (s : string).

(** JavaScript truthiness, as tested by [!addr]. *)
Definition truthy (v : JsValue) : bool :=
  match v with
  | JsUndefined => false
  | JsNull => false
  | JsString s => negb (s =? "")%string
  end.

(** A thrown error: its message and, for a decoded contract revert, the
    object [errorArgs] as a list of named fields. *)
Record JsError : Type := mkError {
  message : string;
  errorArgs : option (list (string * JsValue))
}.

(** [new Error(msg)] *)
Definition Error (msg : string) : JsError :=
  {| message := msg; errorArgs := None |}.

Fixpoint getField (name : string) (obj : list (string * JsValue)) : JsValue :=
  match obj with
  | [] => JsUndefined
  | (k, v) :: rest => if (k =? name)%string then v else getField name rest
  end.

(** [error?.errorArgs?.sender] *)
Definition errorArgs_sender (error : JsError) : JsValue :=
  match errorArgs error with
  | None => JsUndefined
  | Some args => getField "sender" args
  end.

Inductive Result (A : Type) : Type :=
| Ok (a : A)
| Err (e : JsError).
Arguments Ok {A} a.
Arguments Err {A} e.

(** [x || d] on an optional string: [undefined] and the empty string are
    falsy. *)
Definition orDefault (x : option string) (d : string) : string :=
  match x with
  | Some s => if (s =? "")%string then d else s
  | None => d
  end.

(** ** The world: clock and requests issued *)

Record Block : Type := { number : Z }.

(** A decoded [SettleUserOp] log entry of the paymaster. *)
Record Event : Type := {
  blockNumber : Z;
  ev_sender : string;
  ev_userOpHash : string
}.

(** [filters.SettleUserOp(sender, userOpHash)]; [None] is [null]. *)
Record EventFilter : Type := {
  f_sender : option string;
  f_userOpHash : option string
}.

Definition SettleUserOp (sender userOpHash : option string) : EventFilter :=
  {| f_sender := sender; f_userOpHash := userOpHash |}.

(** The message handed to [signer.signMessage]. *)
Inductive Message : Type :=
| arrayify_keccak256 (hex : string).

Inductive Action : Type :=
| ActGetAddress
| ActSignMessage (m : Message)
| ActGetSenderAddress (entryPoint : string) (initCode : string)
| ActGetNonce (entryPoint : string) (sender : string) (key : Z)
| ActGetBlock (tag : string)
| ActQueryFilter (paymaster : string) (filter : EventFilter) (fromBlock : Z)
| ActSetTimeout (ms : Z).

Record World : Type := {
  clock : Z;            (* what Date.now() returns *)
  trace : list Action   (* requests issued so far, oldest first *)
}.

Definition Date_now (w : World) : Z := clock w.

(** Effectful code: the world is threaded also through a failure. *)
Definition M (A : Type) : Type := World -> Result A * World.

Definition ret {A} (a : A) : M A := fun w => (Ok a, w).
Definition throw {A} (e : JsError) : M A := fun w => (Err e, w).
Definition bind {A B} (m : M A) (k : A -> M B) : M B :=
  fun w =>
    match m w with
    | (Ok a, w') => k a w'
    | (Err e, w') => (Err e, w')
    end.

Notation "x <- m ;; k" := (bind m (fun x => k))
  (at level 61, m at next level, right associativity).

(** An awaited request: it is recorded, takes [d] milliseconds and is
    answered by [r]. *)
Definition await {A} (a : Action) (d : N) (r : Result A) : M A :=
  fun w => (r, {| clock := clock w + Z.of_N d; trace := trace w ++ [a] |}).

(** ** Hex strings ([ethers.utils]) *)

Definition isHexDigit (c : ascii) : bool :=
  let n := nat_of_ascii c in
  ((48 <=? n) && (n <=? 57) || (97 <=? n) && (n <=? 102)
   || (65 <=? n) && (n <=? 70))%nat.

Fixpoint allHex (s : string) : bool :=
  match s with
  | EmptyString => true
  | String c rest => isHexDigit c && allHex rest
  end.

(** [isHexString]: the pattern [^0x[0-9A-Fa-f]*$]. *)
Definition isHexString (s : string) : bool :=
  match s with
  | String c0 (String c1 digits) =>
      (c0 =? "0")%char && (c1 =? "x")%char && allHex digits
  | _ => false
  end.

Definition lowerChar (c : ascii) : ascii :=
  let n := nat_of_ascii c in
  if ((65 <=? n) && (n <=? 90))%nat then ascii_of_nat (n + 32) else c.

Fixpoint toLowerCase (s : string) : string :=
  match s with
  | EmptyString => EmptyString
  | String c rest => String (lowerChar c) (toLowerCase rest)
  end.

(** [s.substring(2)] *)
Definition substring2 (s : string) : string :=
  match s with
  | String _ (String _ rest) => rest
  | _ => EmptyString
  end.

(** [hexlify] on a string argument: a hex string of even length is
    lower-cased, anything else is rejected. *)
Definition hexlify (s : string) : Result string :=
  if isHexString s then
    if Nat.even (String.length s) then Ok (toLowerCase s)
    else Err (Error "hex data is odd-length")
  else Err (Error "invalid hexlify value").

(** [hexConcat(items)]: ["0x"] followed by the digits of every item. *)
Fixpoint hexConcat_from (result : string) (items : list string) : Result string :=
  match items with
  | [] => Ok result
  | item :: rest =>
      match hexlify item with
      | Ok h => hexConcat_from (result ++ substring2 h) rest
      | Err e => Err e
      end
  end.

Definition hexConcat (items : list string) : Result string :=
  hexConcat_from "0x" items.

(** ** Contract interfaces *)

(** Arguments handed to [interface.encodeFunctionData]. *)
Inductive AbiValue : Type :=
| VAddress (a : string)
| VUint (z : Z)                    (* a BigNumberish *)
| VBytes (b : string)              (* a BytesLike *)
| VArray (items : list AbiValue)
| VStruct (fields : list AbiValue). (* IMEVBoostAccount.MEVConfigStruct *)

Definition MEVConfigStruct : Type := list AbiValue.

Inductive Abi : Type :=
| MEVBoostAccountFactory_abi
| MEVBoostAccount_abi.

(** A contract connected to the provider; only its address varies. *)
Record Contract : Type := connect { address : string }.

Definition AddressZero : string :=
  "0x0000000000000000000000000000000000000000".

(** ** User operations and middleware (the base SDK's record shapes) *)

Module Op.
(** The operation-in-progress: sender, nonce, init code, call data, the
    gas fields and the signature. *)
Record UserOperation : Type := mk {
  sender : string;
  nonce : Z;
  initCode : string;
  callData : string;
  callGasLimit : Z;
  verificationGasLimit : Z;
  preVerificationGas : Z;
  maxFeePerGas : Z;
  maxPriorityFeePerGas : Z;
  paymasterAndData : string;
  signature : string
}.

Definition set_nonce (n : Z) (o : UserOperation) : UserOperation :=
  mk (sender o) n (initCode o) (callData o) (callGasLimit o)
     (verificationGasLimit o) (preVerificationGas o) (maxFeePerGas o)
     (maxPriorityFeePerGas o) (paymasterAndData o) (signature o).

Definition set_initCode (c : string) (o : UserOperation) : UserOperation :=
  mk (sender o) (nonce o) c (callData o) (callGasLimit o)
     (verificationGasLimit o) (preVerificationGas o) (maxFeePerGas o)
     (maxPriorityFeePerGas o) (paymasterAndData o) (signature o).

Definition set_callData (d : string) (o : UserOperation) : UserOperation :=
  mk (sender o) (nonce o) (initCode o) d (callGasLimit o)
     (verificationGasLimit o) (preVerificationGas o) (maxFeePerGas o)
     (maxPriorityFeePerGas o) (paymasterAndData o) (signature o).

Definition set_sender_signature (s sig : string) (o : UserOperation)
  : UserOperation :=
  mk s (nonce o) (initCode o) (callData o) (callGasLimit o)
     (verificationGasLimit o) (preVerificationGas o) (maxFeePerGas o)
     (maxPriorityFeePerGas o) (paymasterAndData o) sig.
End Op.

(** The context a middleware function receives. *)
Record Ctx : Type := mkCtx {
  op : Op.UserOperation;
  ctx_entryPoint : string;
  ctx_chainId : Z
}.

Definition UserOperationMiddlewareFn : Type := Ctx -> M Ctx.

(** [new BundlerJsonRpcProvider(rpcUrl).setBundlerRpc(bundlerRpc)] *)
Record Provider : Type := {
  rpcUrl : string;
  bundlerRpc : option string
}.

(** The injected signer capability. *)
Record Signer : Type := {
  signer_address : World -> Result string;
  signer_sign : Message -> World -> Result string
}.

(** What [useMiddleware] can be handed in this class. *)
Inductive Middleware : Type :=
| resolveAccount_mw
| getGasPrice_mw (p : Provider)
| estimateUserOperationGas_mw (p : Provider)
| EOASignature_mw (p : Provider) (s : Signer)
| caller_mw (fn : UserOperationMiddlewareFn).

Record IMEVBoostAccountBuilderOpts : Type := {
  opt_entryPoint : option string;
  opt_factory : option string;
  opt_overrideBundlerRpc : option string;
  opt_paymasterMiddleware : option UserOperationMiddlewareFn;
  opt_mevBoostPaymaster : option string
}.

(** ** The collaborators *)

(** The constants tables ([Constants.ERC4337], [./constants]), the ABI
    encoder, the chain behind the provider, the time every request takes,
    and the middleware of [userop] and [./middleware]. *)
Record Env : Type := {
  ERC4337_EntryPoint : string;
  MEVBoostAA_Factory : string;
  MEVBoostAA_MEVBoostPaymaster : string;
  DEFAULT_USER_OP : Op.UserOperation;
  encodeFunctionData : Abi -> string -> list AbiValue -> Result string;
  rpc_getSenderAddress : World -> string -> string -> Result unit;
  rpc_getNonce : World -> string -> string -> Z -> Result Z;
  rpc_getBlock : World -> string -> Result Block;
  rpc_queryFilter : World -> string -> EventFilter -> Z -> Result (list Event);
  latency : World -> Action -> N;
  Presets_getGasPrice : Provider -> UserOperationMiddlewareFn;
  estimateUserOperationGas : Provider -> UserOperationMiddlewareFn;
  EOASignature : Provider -> Signer -> UserOperationMiddlewareFn
}.

(** A request to a collaborator: the answer and the time taken are read
    off the world in which the request is made. *)
Definition request {A} (env : Env) (a : Action) (answer : World -> Result A)
  : M A :=
  fun w => await a (latency env w a) (answer w) w.

(** ** The builder *)

(** The instance: the private fields of [MEVBoostAccount] and the state it
    inherits from [UserOperationBuilder]. *)
Record MEVBoostAccount : Type := mkAccount {
  signer : Signer;
  provider : Provider;
  entryPoint : Contract;
  factory : Contract;
  mevBoostPaymaster : Contract;
  initCode : string;
  proxy : Contract;
  defaultOp : Op.UserOperation;
  currOp : Op.UserOperation;
  middlewareStack : list Middleware
}.

Definition set_initCode (c : string) (i : MEVBoostAccount) : MEVBoostAccount :=
  mkAccount (signer i) (provider i) (entryPoint i) (factory i)
            (mevBoostPaymaster i) c (proxy i) (defaultOp i) (currOp i)
            (middlewareStack i).

Definition set_proxy (p : Contract) (i : MEVBoostAccount) : MEVBoostAccount :=
  mkAccount (signer i) (provider i) (entryPoint i) (factory i)
            (mevBoostPaymaster i) (initCode i) p (defaultOp i) (currOp i)
            (middlewareStack i).

Definition set_currOp (o : Op.UserOperation) (i : MEVBoostAccount)
  : MEVBoostAccount :=
  mkAccount (signer i) (provider i) (entryPoint i) (factory i)
            (mevBoostPaymaster i) (initCode i) (proxy i) (defaultOp i) o
            (middlewareStack i).

(** Modelled from the spec: the base builder [UserOperationBuilder] of the
    [userop] package is not under src/.  [useDefaults] seeds the given
    fields (here always sender and signature) in the default and the
    current operation. *)
Definition useDefaults (sender signature : string) (i : MEVBoostAccount)
  : MEVBoostAccount :=
  mkAccount (signer i) (provider i) (entryPoint i) (factory i)
            (mevBoostPaymaster i) (initCode i) (proxy i)
            (Op.set_sender_signature sender signature (defaultOp i))
            (Op.set_sender_signature sender signature (currOp i))
            (middlewareStack i).

(** Modelled from the spec: [useMiddleware] of the base builder, not under
    src/, registers an entry after those already registered (execution
    order is registration order). *)
Definition useMiddleware (fn : Middleware) (i : MEVBoostAccount)
  : MEVBoostAccount :=
  mkAccount (signer i) (provider i) (entryPoint i) (factory i)
            (mevBoostPaymaster i) (initCode i) (proxy i) (defaultOp i)
            (currOp i) (middlewareStack i ++ [fn]).

(** Modelled from the spec: [setCallData] of the base builder, not under
    src/, sets the call data of the operation-in-progress and nothing
    else; it runs no middleware. *)
Definition setCallData (val : string) (i : MEVBoostAccount) : MEVBoostAccount :=
  set_currOp (Op.set_callData val (currOp i)) i.

(** The private constructor. *)
Definition constructor (env : Env) (signer0 : Signer) (rpcUrl0 : string)
    (opts : option IMEVBoostAccountBuilderOpts) : MEVBoostAccount :=
  let provider0 :=
    {| rpcUrl := rpcUrl0;
       bundlerRpc := match opts with
                     | Some o => opt_overrideBundlerRpc o
                     | None => None
                     end |} in
  let opt (f : IMEVBoostAccountBuilderOpts -> option string) :=
    match opts with Some o => f o | None => None end in
  {| signer := signer0;
     provider := provider0;
     entryPoint := connect (orDefault (opt opt_entryPoint) (ERC4337_EntryPoint env));
     factory := connect (orDefault (opt opt_factory) (MEVBoostAA_Factory env));
     initCode := "0x";
     proxy := connect AddressZero;
     mevBoostPaymaster :=
       connect (orDefault (opt opt_mevBoostPaymaster)
                          (MEVBoostAA_MEVBoostPaymaster env));
     defaultOp := DEFAULT_USER_OP env;
     currOp := DEFAULT_USER_OP env;
     middlewareStack := [] |}.

(** [resolveAccount]: the middleware that fetches the nonce and selects
    the init code. *)
Definition resolveAccount (env : Env) (this : MEVBoostAccount)
  : UserOperationMiddlewareFn :=
  fun ctx =>
    nonce <- request env
               (ActGetNonce (address (entryPoint this)) (Op.sender (op ctx)) 0)
               (fun w => rpc_getNonce env w (address (entryPoint this))
                                      (Op.sender (op ctx)) 0) ;;
    let op1 := Op.set_nonce nonce (op ctx) in
    let op2 := Op.set_initCode (if Z.eqb nonce 0 then initCode this else "0x")
                               op1 in
    ret (mkCtx op2 (ctx_entryPoint ctx) (ctx_chainId ctx)).

(** The string a truthy [addr] is. *)
Definition js_string (v : JsValue) : string :=
  match v with
  | JsString s => s
  | _ => ""
  end.

(** The [try] block of [init].  Every path out of it throws: the block
    gives the error thrown and the instance as the block left it. *)
Definition init_try (env : Env) (instance : MEVBoostAccount)
  : World -> (JsError * MEVBoostAccount) * World :=
  fun w =>
    match request env ActGetAddress (signer_address (signer instance)) w with
    | (Err e, w1) => ((e, instance), w1)
    | (Ok owner, w1) =>
        match encodeFunctionData env MEVBoostAccountFactory_abi "createAccount"
                [VAddress owner;
                 VAddress (address (mevBoostPaymaster instance));
                 VUint 0] with
        | Err e => ((e, instance), w1)
        | Ok data =>
            match hexConcat [address (factory instance); data] with
            | Err e => ((e, instance), w1)
            | Ok code =>
                let instance1 := set_initCode code instance in
                match request env
                        (ActGetSenderAddress (address (entryPoint instance1))
                                             (initCode instance1))
                        (fun w' => rpc_getSenderAddress env w'
                                     (address (entryPoint instance1))
                                     (initCode instance1)) w1 with
                | (Err e, w2) => ((e, instance1), w2)
                | (Ok _, w2) =>
                    ((Error "getSenderAddress: unexpected result", instance1), w2)
                end
            end
        end
    end.

(** The [catch] block of [init]: rethrow, or bind the proxy. *)
Definition init_catch (error : JsError) (instance : MEVBoostAccount)
  : Result MEVBoostAccount :=
  let addr := errorArgs_sender error in
  if negb (truthy addr) then Err error
  else Ok (set_proxy (connect (js_string addr)) instance).

(** [opts?.paymasterMiddleware] *)
Definition paymasterMiddleware_of (opts : option IMEVBoostAccountBuilderOpts)
  : option UserOperationMiddlewareFn :=
  match opts with
  | Some o => opt_paymasterMiddleware o
  | None => None
  end.

(** The middleware registration of [init], after the placeholder
    signature [sig] has been obtained. *)
Definition init_register (opts : option IMEVBoostAccountBuilderOpts)
    (sig : string) (instance : MEVBoostAccount) : MEVBoostAccount :=
  let base :=
    useMiddleware (getGasPrice_mw (provider instance))
      (useMiddleware resolveAccount_mw
         (useDefaults (address (proxy instance)) sig instance)) in
  let withPM :=
    match paymasterMiddleware_of opts with
    | Some paymasterMiddleware => useMiddleware (caller_mw paymasterMiddleware) base
    | None => useMiddleware (estimateUserOperationGas_mw (provider instance)) base
    end in
  useMiddleware (EOASignature_mw (provider instance) (signer instance)) withPM.

(** [MEVBoostAccount.init] *)
Definition init (env : Env) (signer0 : Signer) (rpcUrl0 : string)
    (opts : option IMEVBoostAccountBuilderOpts) : M MEVBoostAccount :=
  fun w =>
    let instance := constructor env signer0 rpcUrl0 opts in
    let '((error, instance1), w1) := init_try env instance w in
    match init_catch error instance1 with
    | Err e => (Err e, w1)
    | Ok instance2 =>
        match request env (ActSignMessage (arrayify_keccak256 "0xdead"))
                (signer_sign (signer instance2)
                             (arrayify_keccak256 "0xdead")) w1 with
        | (Err e, w2) => (Err e, w2)
        | (Ok sig, w2) => (Ok (init_register opts sig instance2), w2)
        end
    end.

(** ** The call-data setters

    Each gives the completion of the call and the instance after it. *)

Definition setEncoded (env : Env) (name : string) (args : list AbiValue)
    (this : MEVBoostAccount) : Result unit * MEVBoostAccount :=
  match encodeFunctionData env MEVBoostAccount_abi name args with
  | Ok data => (Ok tt, setCallData data this)
  | Err e => (Err e, this)
  end.

Definition execute (env : Env) (to : string) (value : Z) (data : string)
    (this : MEVBoostAccount) : Result unit * MEVBoostAccount :=
  setEncoded env "execute" [VAddress to; VUint value; VBytes data] this.

Definition executeBatch (env : Env) (to : list string) (value : list Z)
    (data : list string) (this : MEVBoostAccount)
  : Result unit * MEVBoostAccount :=
  setEncoded env "executeBatch"
    [VArray (map VAddress to); VArray (map VUint value);
     VArray (map VBytes data)] this.

Definition boostExecute (env : Env) (config : MEVConfigStruct) (to : string)
    (value : Z) (data : string) (this : MEVBoostAccount)
  : Result unit * MEVBoostAccount :=
  setEncoded env "boostExecute"
    [VStruct config; VAddress to; VUint value; VBytes data] this.

Definition boostExecuteBatch (env : Env) (config : MEVConfigStruct)
    (to : list string) (value : list Z) (data : list string)
    (this : MEVBoostAccount) : Result unit * MEVBoostAccount :=
  setEncoded env "boostExecuteBatch"
    [VStruct config; VArray (map VAddress to); VArray (map VUint value);
     VArray (map VBytes data)] this.

(** ** The settlement waiter *)

(** [deadlineMs || Date.now() + 30000]: an absent deadline and the number
    zero are falsy. *)
Definition deadline_or_default (deadlineMs : option Z) (w : World) : Z :=
  match deadlineMs with
  | Some d => if d =? 0 then Date_now w + 30000 else d
  | None => Date_now w + 30000
  end.

(** The default value of the parameter [waitIntervalMs]. *)
Definition interval_or_default (waitIntervalMs : option Z) : Z :=
  match waitIntervalMs with
  | Some ms => ms
  | None => 5000
  end.

Definition queryFrom (block : Block) : Z := Z.max 0 (number block - 100).

Definition queryAction (this : MEVBoostAccount) (userOpHash : string)
    (block : Block) : Action :=
  ActQueryFilter (address (mevBoostPaymaster this))
                 (SettleUserOp None (Some userOpHash)) (queryFrom block).

(** The [while] loop of [boostWait]; every test of the loop condition
    takes one unit of fuel, [None] is fuel exhausted. *)
Fixpoint boostWait_loop (env : Env) (this : MEVBoostAccount)
    (userOpHash : string) (end_ : Z) (block : Block) (waitIntervalMs : Z)
    (fuel : nat) (w : World) : option (Result (option Event) * World) :=
  match fuel with
  | O => None
  | S fuel' =>
      if Date_now w <? end_ then
        match request env (queryAction this userOpHash block)
                (fun w' => rpc_queryFilter env w'
                             (address (mevBoostPaymaster this))
                             (SettleUserOp None (Some userOpHash))
                             (queryFrom block)) w with
        | (Err e, w1) => Some (Err e, w1)
        | (Ok events, w1) =>
            match events with
            | first :: _ => Some (Ok (Some first), w1)
            | [] =>
                let '(_, w2) :=
                  request env (ActSetTimeout waitIntervalMs)
                          (fun _ => Ok tt) w1 in
                boostWait_loop env this userOpHash end_ block waitIntervalMs
                               fuel' w2
            end
        end
      else Some (Ok None, w)
  end.

(** [boostWait(userOpHash, deadlineMs?, waitIntervalMs = 5000)] *)
Definition boostWait (env : Env) (this : MEVBoostAccount)
    (userOpHash : string) (deadlineMs : option Z) (waitIntervalMs : option Z)
    (fuel : nat) (w : World) : option (Result (option Event) * World) :=
  let interval := interval_or_default waitIntervalMs in
  let end_ := deadline_or_default deadlineMs w in
  match request env (ActGetBlock "latest")
          (fun w' => rpc_getBlock env w' "latest") w with
  | (Err e, w1) => Some (Err e, w1)
  | (Ok block, w1) =>
      boostWait_loop env this userOpHash end_ block interval fuel w1
  end.

(** ** Finalization *)

(** What a registered entry does when it is run on behalf of [this]. *)
Definition runMiddleware (env : Env) (this : MEVBoostAccount) (mw : Middleware)
  : UserOperationMiddlewareFn :=
  match mw with
  | resolveAccount_mw => resolveAccount env this
  | getGasPrice_mw p => Presets_getGasPrice env p
  | estimateUserOperationGas_mw p => estimateUserOperationGas env p
  | EOASignature_mw p s => EOASignature env p s
  | caller_mw fn => fn
  end.

Fixpoint runStack (env : Env) (this : MEVBoostAccount) (stack : list Middleware)
    (ctx : Ctx) : M Ctx :=
  match stack with
  | [] => ret ctx
  | fn :: rest =>
      ctx' <- runMiddleware env this fn ctx ;;
      runStack env this rest ctx'
  end.

(** Modelled from the spec: finalization ([buildOp] of the base builder,
    not under src/) runs the middleware chain in registration order over
    the operation-in-progress and returns the result, or propagates the
    first middleware failure. *)
Definition buildOp (env : Env) (entryPoint0 : string) (chainId : Z)
    (this : MEVBoostAccount) (w : World)
  : Result Op.UserOperation * MEVBoostAccount * World :=
  match runStack env this (middlewareStack this)
          (mkCtx (currOp this) entryPoint0 chainId) w with
  | (Ok ctx, w') => (Ok (op ctx), set_currOp (op ctx) this, w')
  | (Err e, w') => (Err e, this, w')
  end.

(** The public operations of a builder, as a caller can invoke them. *)
Inductive PublicOp : Type :=
| Call_execute (to : string) (value : Z) (data : string)
| Call_executeBatch (to : list string) (value : list Z) (data : list string)
| Call_boostExecute (config : MEVConfigStruct) (to : string) (value : Z)
                    (data : string)
| Call_boostExecuteBatch (config : MEVConfigStruct) (to : list string)
                         (value : list Z) (data : list string)
| Call_boostWait (userOpHash : string) (deadlineMs waitIntervalMs : option Z)
                 (fuel : nat)
| Call_buildOp (entryPoint0 : string) (chainId : Z).

(** The instance and the world after one public operation. *)
Definition perform (env : Env) (c : PublicOp) (st : MEVBoostAccount * World)
  : MEVBoostAccount * World :=
  let '(this, w) := st in
  match c with
  | Call_execute to value data => (snd (execute env to value data this), w)
  | Call_executeBatch to value data =>
      (snd (executeBatch env to value data this), w)
  | Call_boostExecute config to value data =>
      (snd (boostExecute env config to value data this), w)
  | Call_boostExecuteBatch config to value data =>
      (snd (boostExecuteBatch env config to value data this), w)
  | Call_boostWait userOpHash deadlineMs waitIntervalMs fuel =>
      match boostWait env this userOpHash deadlineMs waitIntervalMs fuel w with
      | Some (_, w') => (this, w')
      | None => (this, w)
      end
  | Call_buildOp entryPoint0 chainId =>
      let '(_, this', w') := buildOp env entryPoint0 chainId this w in
      (this', w')
  end.

Definition performAll (env : Env) (calls : list PublicOp)
    (st : MEVBoostAccount * World) : MEVBoostAccount * World :=
  fold_left (fun st c => perform env c st) calls st.

(** ** A concrete world, for running the embedding *)

Module Sample.

Definition owner : string := "0x1111111111111111111111111111111111111111".
Definition account : string := "0x2222222222222222222222222222222222222222".

Definition wallet : Signer :=
  {| signer_address := fun _ => Ok owner;
     signer_sign := fun _ _ => Ok "0xfeed" |}.

(** The revert [SenderAddressResult(sender)] as ethers decodes it. *)
Definition SenderAddressResult (sender : string) : JsError :=
  {| message := "call revert exception";
     errorArgs := Some [("sender", JsString sender)] |}.

Definition settled (userOpHash : string) : Event :=
  {| blockNumber := 1000; ev_sender := account; ev_userOpHash := userOpHash |}.

Definition sameLength (a b c : list AbiValue) : bool :=
  (List.length a =? List.length b)%nat && (List.length b =? List.length c)%nat.

(** An encoder that gives the selector only and checks the arrays of a
    batch. *)
Definition encoder (abi : Abi) (name : string) (args : list AbiValue)
  : Result string :=
  match args with
  | [VArray a; VArray b; VArray c] =>
      if sameLength a b c then Ok "0x47e1da2a"
      else Err (Error "array length mismatch")
  | [VStruct _; VArray a; VArray b; VArray c] =>
      if sameLength a b c then Ok "0x8d80ff0a"
      else Err (Error "array length mismatch")
  | [VAddress _; VAddress _; VUint _] => Ok "0x5fbfb9cf"
  | _ => Ok "0xb61d27f6"
  end.

Definition defaults : Op.UserOperation :=
  Op.mk AddressZero 0 "0x" "0x" 35000 70000 21000 0 0 "0x" "0x".

Definition slow (ms : Z) : UserOperationMiddlewareFn :=
  fun ctx w => (Ok ctx, {| clock := clock w + ms; trace := trace w |}).

(** A chain whose entry point answers [getSenderAddress] with [reply],
    whose nonce is [nonce], whose head is [head] and on which the
    settlement of any operation is logged from clock time [settledAt]
    on.  Requests take 10 ms, a timer as long as asked (1 ms at least). *)
Definition chain (reply : Result unit) (nonce head settledAt : Z) : Env :=
  {| ERC4337_EntryPoint := "0x5FF137D4b0FDCD49DcA30c7CF57E578a026d2789";
     MEVBoostAA_Factory := "0x3333333333333333333333333333333333333333";
     MEVBoostAA_MEVBoostPaymaster := "0x4444444444444444444444444444444444444444";
     DEFAULT_USER_OP := defaults;
     encodeFunctionData := encoder;
     rpc_getSenderAddress := fun _ _ _ => reply;
     rpc_getNonce := fun _ _ _ _ => Ok nonce;
     rpc_getBlock := fun _ _ => Ok {| number := head |};
     rpc_queryFilter := fun w _ f _ =>
       if settledAt <=? clock w
       then Ok [settled (match f_userOpHash f with Some h => h | None => "" end)]
       else Ok [];
     latency := fun _ a =>
       match a with
       | ActSetTimeout ms => Z.to_N (Z.max 1 ms)
       | _ => 10%N
       end;
     Presets_getGasPrice := fun _ => slow 10;
     estimateUserOperationGas := fun _ => slow 10;
     EOASignature := fun _ _ => slow 10 |}.

Definition start (now : Z) : World := {| clock := now; trace := [] |}.

(** The hash of a user operation. *)
Definition opHash : string :=
  "0x9b1f0c2d3e4a5b6c7d8e9fa0b1c2d3e4f5061728394a5b6c7d8e9fa0b1c2d3e4".

(** The usual chain: the entry point reverts with the account address. *)
Definition mainnet : Env :=
  chain (Err (SenderAddressResult account)) 0 5000 12000.

(** The builder [init] gives on [mainnet]. *)
Definition builder : MEVBoostAccount :=
  init_register None "0xfeed"
    (set_proxy (connect account)
       (set_initCode
          "0x33333333333333333333333333333333333333335fbfb9cf"
          (constructor mainnet wallet "http://localhost:8545" None))).

End Sample.

(** ** What the claims are stated with *)

(** The world once request [a] has been answered. *)
Definition after (env : Env) (a : Action) (w : World) : World :=
  {| clock := clock w + Z.of_N (latency env w a); trace := trace w ++ [a] |}.

(** [k] polls without a match: a query, then a sleep, [k] times. *)
Fixpoint polls (query sleep : Action) (k : nat) : list Action :=
  match k with
  | O => []
  | S k' => query :: sleep :: polls query sleep k'
  end.

(** The settlement waiter in the words of its contract: query the log
    until a matching event is found or the deadline elapses, sleeping for
    the poll interval between queries; the outcome is the first event of
    the first answer that has one, null once the deadline has elapsed, or
    the failure of a query. *)
Inductive polling (env : Env) (paymaster userOpHash : string) (fromBlock : Z)
    (deadline interval : Z) : World -> Result (option Event) -> World -> Prop :=
| polling_elapsed w :
    deadline <= Date_now w ->
    polling env paymaster userOpHash fromBlock deadline interval w (Ok None) w
| polling_found w first others :
    Date_now w < deadline ->
    rpc_queryFilter env w paymaster (SettleUserOp None (Some userOpHash))
                    fromBlock = Ok (first :: others) ->
    polling env paymaster userOpHash fromBlock deadline interval w
      (Ok (Some first))
      (after env (ActQueryFilter paymaster
                    (SettleUserOp None (Some userOpHash)) fromBlock) w)
| polling_failed w e :
    Date_now w < deadline ->
    rpc_queryFilter env w paymaster (SettleUserOp None (Some userOpHash))
                    fromBlock = Err e ->
    polling env paymaster userOpHash fromBlock deadline interval w (Err e)
      (after env (ActQueryFilter paymaster
                    (SettleUserOp None (Some userOpHash)) fromBlock) w)
| polling_again w r w' :
    Date_now w < deadline ->
    rpc_queryFilter env w paymaster (SettleUserOp None (Some userOpHash))
                    fromBlock = Ok [] ->
    polling env paymaster userOpHash fromBlock deadline interval
      (after env (ActSetTimeout interval)
         (after env (ActQueryFilter paymaster
                       (SettleUserOp None (Some userOpHash)) fromBlock) w))
      r w' ->
    polling env paymaster userOpHash fromBlock deadline interval w r w'.

(** The requests a wait ends with: none when the deadline elapsed, the
    answered query otherwise. *)
Definition lastRequest (query : Action) (r : Result (option Event))
  : list Action :=
  match r with
  | Ok None => []
  | _ => [query]
  end.

(** Every timer lets the clock advance. *)
Definition timers_advance (env : Env) : Prop :=
  forall w ms, (1 <= latency env w (ActSetTimeout ms))%N.

(** The number of log queries among the requests [t]. *)
Fixpoint queries (t : list Action) : nat :=
  match t with
  | [] => O
  | ActQueryFilter _ _ _ :: rest => S (queries rest)
  | _ :: rest => queries rest
  end.

(** An encoded call is longer than the empty byte string: it starts with
    the selector of the function. *)
Definition encoder_emits_selector (env : Env) : Prop :=
  forall abi name args data,
    encodeFunctionData env abi name args = Ok data ->
    (2 < String.length data)%nat.

(** Two operations that differ in their call data at most. *)
Definition op_same_but_callData (a b : Op.UserOperation) : Prop :=
  Op.sender a = Op.sender b
  /\ Op.nonce a = Op.nonce b
  /\ Op.initCode a = Op.initCode b
  /\ Op.callGasLimit a = Op.callGasLimit b
  /\ Op.verificationGasLimit a = Op.verificationGasLimit b
  /\ Op.preVerificationGas a = Op.preVerificationGas b
  /\ Op.maxFeePerGas a = Op.maxFeePerGas b
  /\ Op.maxPriorityFeePerGas a = Op.maxPriorityFeePerGas b
  /\ Op.paymasterAndData a = Op.paymasterAndData b
  /\ Op.signature a = Op.signature b.

(** Two instances that differ in the call data of the
    operation-in-progress at most. *)
Definition same_but_callData (a b : MEVBoostAccount) : Prop :=
  signer a = signer b
  /\ provider a = provider b
  /\ entryPoint a = entryPoint b
  /\ factory a = factory b
  /\ mevBoostPaymaster a = mevBoostPaymaster b
  /\ initCode a = initCode b
  /\ proxy a = proxy b
  /\ defaultOp a = defaultOp b
  /\ middlewareStack a = middlewareStack b
  /\ op_same_but_callData (currOp a) (currOp b).

(** Every timer takes at least as long as it was asked to. *)
Definition timers_honour (env : Env) : Prop :=
  forall w ms, ms <= Z.of_N (latency env w (ActSetTimeout ms)).

(** The call-data setters among the public operations: the completion of
    the call and the instance after it, [None] for the other operations. *)
Definition callSetter (env : Env) (c : PublicOp) (this : MEVBoostAccount)
  : option (Result unit * MEVBoostAccount) :=
  match c with
  | Call_execute to value data => Some (execute env to value data this)
  | Call_executeBatch to value data =>
      Some (executeBatch env to value data this)
  | Call_boostExecute config to value data =>
      Some (boostExecute env config to value data this)
  | Call_boostExecuteBatch config to value data =>
      Some (boostExecuteBatch env config to value data this)
  | Call_boostWait _ _ _ _ => None
  | Call_buildOp _ _ => None
  end.

(** [opts?.field] for an optional string field. *)
Definition override (opts : option IMEVBoostAccountBuilderOpts)
    (field : IMEVBoostAccountBuilderOpts -> option string) : option string :=
  match opts with
  | Some o => field o
  | None => None
  end.

(** A signer whose [getAddress] fails with [e]. *)
Definition brokenSigner (e : JsError) : Signer :=
  {| signer_address := fun _ => Err e;
     signer_sign := fun _ _ => Ok "0xfeed" |}.

(** *** The ABI layout of a batch

    The encoder of the account interface is not under src/.  What follows
    is the layout the contract ABI gives to the three arguments of
    [executeBatch], typed (address[], uint256[], bytes[]): every array is
    encoded on its own, as its length followed by its elements, and the
    head of the call holds the offset of each array.  Addresses are taken
    in lower case (the checksum of a mixed-case address is not
    modelled). *)

Definition hexChar (n : Z) : ascii :=
  match String.get (Z.to_nat n) "0123456789abcdef" with
  | Some c => c
  | None => "0"%char
  end.

(** [z] in [digits] hex digits, most significant first. *)
Fixpoint hexOfZ (digits : nat) (z : Z) : string :=
  match digits with
  | O => ""
  | S d => hexOfZ d (z / 16) ++ String (hexChar (z mod 16)) ""
  end.

(** A 32-byte word. *)
Definition abiWord (z : Z) : string := hexOfZ 64 z.

Fixpoint zeros (n : nat) : string :=
  match n with
  | O => ""
  | S n' => String "0" (zeros n')
  end.

(** The number of bytes a run of hex digits stands for. *)
Definition bytesOf (digits : string) : Z := Z.of_nat (String.length digits) / 2.

Definition isAddress (a : string) : bool :=
  isHexString a && (String.length a =? 42)%nat && (toLowerCase a =? a)%string.

Definition isUint256 (z : Z) : bool := (0 <=? z) && (z <? 2 ^ 256).

Definition isBytes (b : string) : bool :=
  isHexString b && Nat.even (String.length b).

Definition encodeAddress (v : AbiValue) : Result string :=
  match v with
  | VAddress a =>
      if isAddress a then Ok (zeros 24 ++ substring2 a)
      else Err (Error "invalid address")
  | _ => Err (Error "invalid address")
  end.

Definition encodeUint256 (v : AbiValue) : Result string :=
  match v with
  | VUint z =>
      if isUint256 z then Ok (abiWord z)
      else Err (Error "value out-of-bounds")
  | _ => Err (Error "invalid BigNumber value")
  end.

(** A [bytes] value: its length, then its bytes padded on the right to a
    multiple of 32. *)
Definition encodeBytes (v : AbiValue) : Result string :=
  match v with
  | VBytes b =>
      if isBytes b then
        let digits := substring2 (toLowerCase b) in
        Ok (abiWord (bytesOf digits) ++ digits
            ++ zeros ((64 - String.length digits mod 64) mod 64))
      else Err (Error "invalid arrayify value")
  | _ => Err (Error "invalid arrayify value")
  end.

Fixpoint encodeAll (enc : AbiValue -> Result string) (items : list AbiValue)
  : Result (list string) :=
  match items with
  | [] => Ok []
  | item :: rest =>
      match enc item with
      | Err e => Err e
      | Ok h =>
          match encodeAll enc rest with
          | Err e => Err e
          | Ok t => Ok (h :: t)
          end
      end
  end.

Definition joinHex (parts : list string) : string :=
  fold_right String.append "" parts.

(** The offsets of consecutive encodings, the first one at [start]. *)
Fixpoint offsetsFrom (start : Z) (encodings : list string) : list Z :=
  match encodings with
  | [] => []
  | e :: rest => start :: offsetsFrom (start + bytesOf e) rest
  end.

(** An array of static elements: the length, then the elements. *)
Definition encodeStaticArray (enc : AbiValue -> Result string)
    (items : list AbiValue) : Result string :=
  match encodeAll enc items with
  | Err e => Err e
  | Ok encodings =>
      Ok (abiWord (Z.of_nat (List.length items)) ++ joinHex encodings)
  end.

(** An array of [bytes]: the length, the offset of every element, then
    the elements. *)
Definition encodeBytesArray (items : list AbiValue) : Result string :=
  match encodeAll encodeBytes items with
  | Err e => Err e
  | Ok encodings =>
      Ok (abiWord (Z.of_nat (List.length items))
          ++ joinHex (map abiWord
                        (offsetsFrom (32 * Z.of_nat (List.length items))
                                     encodings))
          ++ joinHex encodings)
  end.

(** The call data of [executeBatch(to, value, data)] under [selector].
    Nothing compares the lengths of the three arrays. *)
Definition encodeBatch (selector : string) (to value data : list AbiValue)
  : Result string :=
  match encodeStaticArray encodeAddress to with
  | Err e => Err e
  | Ok a =>
      match encodeStaticArray encodeUint256 value with
      | Err e => Err e
      | Ok v =>
          match encodeBytesArray data with
          | Err e => Err e
          | Ok d =>
              Ok (selector ++ abiWord 96 ++ abiWord (96 + bytesOf a)
                  ++ abiWord (96 + bytesOf a + bytesOf v) ++ a ++ v ++ d)
          end
      end
  end.

(** An encoder that lays out the batch of the account interface as above
    and is [Sample.encoder] on every other call. *)
Definition abiEncoder (abi : Abi) (name : string) (args : list AbiValue)
  : Result string :=
  match abi, args with
  | MEVBoostAccount_abi, [VArray to; VArray value; VArray data] =>
      if (name =? "executeBatch")%string
      then encodeBatch "0x47e1da2a" to value data
      else Sample.encoder abi name args
  | _, _ => Sample.encoder abi name args
  end.

(** [env] with its encoder replaced. *)
Definition withEncoder
    (enc : Abi -> string -> list AbiValue -> Result string) (env : Env) : Env :=
  {| ERC4337_EntryPoint := ERC4337_EntryPoint env;
     MEVBoostAA_Factory := MEVBoostAA_Factory env;
     MEVBoostAA_MEVBoostPaymaster := MEVBoostAA_MEVBoostPaymaster env;
     DEFAULT_USER_OP := DEFAULT_USER_OP env;
     encodeFunctionData := enc;
     rpc_getSenderAddress := rpc_getSenderAddress env;
     rpc_getNonce := rpc_getNonce env;
     rpc_getBlock := rpc_getBlock env;
     rpc_queryFilter := rpc_queryFilter env;
     latency := latency env;
     Presets_getGasPrice := Presets_getGasPrice env;
     estimateUserOperationGas := estimateUserOperationGas env;
     EOASignature := EOASignature env |}.

(** Options that supply the paymaster middleware [fn] and nothing else. *)
Definition withPaymasterMiddleware (fn : UserOperationMiddlewareFn)
  : IMEVBoostAccountBuilderOpts :=
  {| opt_entryPoint := None;
     opt_factory := None;
     opt_overrideBundlerRpc := None;
     opt_paymasterMiddleware := Some fn;
     opt_mevBoostPaymaster := None |}.

(** ** Running the embedding *)

Example init_on_mainnet :
  fst (init Sample.mainnet Sample.wallet "http://localhost:8545" None
            (Sample.start 0)) = Ok Sample.builder.
Proof. reflexivity. Qed.

Example boostWait_finds_settlement :
  option_map fst
    (boostWait Sample.mainnet Sample.builder Sample.opHash None None 10
               (Sample.start 1000))
  = Some (Ok (Some (Sample.settled Sample.opHash))).
Proof. vm_compute. reflexivity. Qed.

Example boostWait_times_out :
  option_map fst
    (boostWait Sample.mainnet Sample.builder Sample.opHash (Some 9000) (Some 2000) 10
               (Sample.start 1000))
  = Some (Ok None).
Proof. vm_compute. reflexivity. Qed.

(** ** Initialization *)

Lemma request_run {A} (env : Env) (a : Action) (answer : World -> Result A)
    (w : World) :
  request env a answer w = (answer w, after env a w).
Proof. reflexivity. Qed.

(** The [try] block assigns the init code at most. *)
Lemma init_try_frame (env : Env) (i i1 : MEVBoostAccount) (e : JsError)
    (w w1 : World) :
  init_try env i w = ((e, i1), w1) ->
  i1 = i \/ exists code, i1 = set_initCode code i.
Proof.
  unfold init_try. rewrite request_run.
  destruct (signer_address (signer i) w) as [owner|e0].
  2: { intros H; inversion H; now left. }
  destruct (encodeFunctionData env _ _ _) as [data|e0].
  2: { intros H; inversion H; now left. }
  destruct (hexConcat _) as [code|e0].
  2: { intros H; inversion H; now left. }
  rewrite request_run.
  destruct (rpc_getSenderAddress env _ _ _) as [u|e0];
    intros H; inversion H; right; now exists code.
Qed.

(** The [catch] block binds the proxy and nothing else. *)
Lemma init_catch_ok (error : JsError) (i i2 : MEVBoostAccount) :
  init_catch error i = Ok i2 ->
  truthy (errorArgs_sender error) = true
  /\ i2 = set_proxy (connect (js_string (errorArgs_sender error))) i.
Proof.
  unfold init_catch.
  destruct (truthy (errorArgs_sender error)); simpl; intros H; inversion H.
  now split.
Qed.

(** A completed [init], step by step. *)
Lemma init_ok_inv (env : Env) (sg : Signer) (url : string)
    (opts : option IMEVBoostAccountBuilderOpts) (w w' : World)
    (this : MEVBoostAccount) :
  init env sg url opts w = (Ok this, w') ->
  exists error i1 w1 sig,
    init_try env (constructor env sg url opts) w = ((error, i1), w1)
    /\ truthy (errorArgs_sender error) = true
    /\ this = init_register opts sig
                (set_proxy (connect (js_string (errorArgs_sender error))) i1).
Proof.
  unfold init.
  destruct (init_try env (constructor env sg url opts) w)
    as [[error i1] w1] eqn:Htry.
  destruct (init_catch error i1) as [i2|e] eqn:Hcatch.
  2: { intros H; inversion H. }
  apply init_catch_ok in Hcatch. destruct Hcatch as [Ht ->].
  rewrite request_run.
  destruct (signer_sign _ _ w1) as [sig|e]; intros H; inversion H.
  exists error, i1, w1, sig. repeat split; assumption.
Qed.

(** C3: a completed initialization has registered exactly four middleware
    entries, in the order account resolution, gas price, gas estimation,
    signature.  The third entry is the paymaster middleware the caller
    supplied in the options if and only if the caller supplied one, and
    the default gas estimator if and only if the caller supplied none (no
    options, or options without that field): never both, and chosen by
    what the options hold when [init] runs. *)
Theorem init_registers_four_middleware (env : Env) (sg : Signer)
    (url : string) (opts : option IMEVBoostAccountBuilderOpts)
    (w w' : World) (this : MEVBoostAccount) :
  init env sg url opts w = (Ok this, w') ->
  middlewareStack this =
    [resolveAccount_mw;
     getGasPrice_mw (provider this);
     match opts with
     | Some o =>
         match opt_paymasterMiddleware o with
         | Some fn => caller_mw fn
         | None => estimateUserOperationGas_mw (provider this)
         end
     | None => estimateUserOperationGas_mw (provider this)
     end;
     EOASignature_mw (provider this) sg]
  /\ List.length (middlewareStack this) = 4%nat
  /\ ((exists fn, nth_error (middlewareStack this) 2 = Some (caller_mw fn))
      <-> (exists o fn, opts = Some o /\ opt_paymasterMiddleware o = Some fn))
  /\ (nth_error (middlewareStack this) 2
        = Some (estimateUserOperationGas_mw (provider this))
      <-> (opts = None
           \/ exists o, opts = Some o /\ opt_paymasterMiddleware o = None))
  /\ (forall o fn,
         opts = Some o -> opt_paymasterMiddleware o = Some fn ->
         nth_error (middlewareStack this) 2 = Some (caller_mw fn)).
Proof.
  intros H. apply init_ok_inv in H.
  destruct H as (error & i1 & w1 & sig & Htry & _ & ->).
  apply init_try_frame in Htry.
  assert (Hstack :
    middlewareStack (init_register opts sig
       (set_proxy (connect (js_string (errorArgs_sender error))) i1)) =
    [resolveAccount_mw;
     getGasPrice_mw (provider (constructor env sg url opts));
     match opts with
     | Some o =>
         match opt_paymasterMiddleware o with
         | Some fn => caller_mw fn
         | None =>
             estimateUserOperationGas_mw (provider (constructor env sg url opts))
         end
     | None =>
         estimateUserOperationGas_mw (provider (constructor env sg url opts))
     end;
     EOASignature_mw (provider (constructor env sg url opts)) sg]).
  { unfold init_register, paymasterMiddleware_of.
    destruct Htry as [-> | [code ->]];
      destruct opts as [o|]; [destruct (opt_paymasterMiddleware o)| |
                              destruct (opt_paymasterMiddleware o)|];
      reflexivity. }
  assert (Hprov :
    provider (init_register opts sig
       (set_proxy (connect (js_string (errorArgs_sender error))) i1)) =
    provider (constructor env sg url opts)).
  { unfold init_register.
    destruct Htry as [-> | [code ->]];
      destruct (paymasterMiddleware_of opts); reflexivity. }
  rewrite Hprov, Hstack. split; [reflexivity|]. split; [reflexivity|].
  destruct opts as [o|].
  - destruct (opt_paymasterMiddleware o) as [fn|] eqn:Ho; cbn [nth_error].
    + split; [|split].
      * split; intros _; [exists o, fn; now split | now exists fn].
      * split; [intros H; discriminate H|].
        intros [H | (o' & Ho' & H)]; [discriminate H|].
        injection Ho' as Heq. subst o'. rewrite Ho in H. discriminate H.
      * intros o' fn' Ho' Hfn'. injection Ho' as Heq. subst o'.
        rewrite Ho in Hfn'. injection Hfn' as Heq. subst fn'. reflexivity.
    + split; [|split].
      * split; [intros [fn H]; discriminate H|].
        intros (o' & fn & Ho' & H). injection Ho' as Heq. subst o'.
        rewrite Ho in H. discriminate H.
      * split; intros _; [right; exists o; now split | reflexivity].
      * intros o' fn' Ho' Hfn'. injection Ho' as Heq. subst o'.
        rewrite Ho in Hfn'. discriminate Hfn'.
  - cbn [nth_error]. split; [|split].
    + split; [intros [fn H]; discriminate H|].
      intros (o' & fn & Ho' & _). discriminate Ho'.
    + split; intros _; [now left | reflexivity].
    + intros o' fn' Ho'. discriminate Ho'.
Qed.

Lemma init_registers_four_middleware_witness :
  (exists this,
      fst (init Sample.mainnet Sample.wallet "http://localhost:8545"
                (Some (withPaymasterMiddleware (Sample.slow 5)))
                (Sample.start 0)) = Ok this
      /\ middlewareStack this =
           [resolveAccount_mw;
            getGasPrice_mw (provider this);
            caller_mw (Sample.slow 5);
            EOASignature_mw (provider this) Sample.wallet])
  /\ middlewareStack Sample.builder =
       [resolveAccount_mw;
        getGasPrice_mw (provider Sample.builder);
        estimateUserOperationGas_mw (provider Sample.builder);
        EOASignature_mw (provider Sample.builder) Sample.wallet].
Proof.
  split.
  - destruct (init Sample.mainnet Sample.wallet "http://localhost:8545"
                (Some (withPaymasterMiddleware (Sample.slow 5)))
                (Sample.start 0)) as [[this|e] w'] eqn:Hinit;
      [|vm_compute in Hinit; discriminate Hinit].
    exists this. split; [reflexivity|].
    exact (proj1 (init_registers_four_middleware Sample.mainnet Sample.wallet
                    "http://localhost:8545"
                    (Some (withPaymasterMiddleware (Sample.slow 5)))
                    (Sample.start 0) w' this Hinit)).
  - exact (proj1 (init_registers_four_middleware Sample.mainnet Sample.wallet
                    "http://localhost:8545" None (Sample.start 0) _
                    Sample.builder eq_refl)).
Defined.

(** Once the signer's address is known and the init code is formed, the
    [try] block issues the simulated call and throws according to its
    answer. *)
Lemma init_try_issued (env : Env) (sg : Signer) (url : string)
    (opts : option IMEVBoostAccountBuilderOpts) (w : World)
    (owner data code : string) :
  let instance := constructor env sg url opts in
  let w1 := after env ActGetAddress w in
  let w2 := after env (ActGetSenderAddress (address (entryPoint instance)) code)
                  w1 in
  signer_address sg w = Ok owner ->
  encodeFunctionData env MEVBoostAccountFactory_abi "createAccount"
    [VAddress owner; VAddress (address (mevBoostPaymaster instance)); VUint 0]
  = Ok data ->
  hexConcat [address (factory instance); data] = Ok code ->
  init_try env instance w =
    match rpc_getSenderAddress env w1 (address (entryPoint instance)) code with
    | Ok _ => ((Error "getSenderAddress: unexpected result",
                set_initCode code instance), w2)
    | Err e => ((e, set_initCode code instance), w2)
    end.
Proof.
  intros instance w1 w2 Hown Henc Hcat.
  unfold init_try. rewrite request_run.
  change (signer instance) with sg. rewrite Hown, Henc, Hcat.
  rewrite request_run. simpl.
  destruct (rpc_getSenderAddress env _ _ _); reflexivity.
Qed.

(** C1, as amended: once the signer's address is known and the init code
    is formed, [init] issues the simulated [getSenderAddress] call.  If the
    call succeeds, [init] fails with the error "unexpected result"; if it
    fails and the failure carries no sender (none at all, or an empty
    one), [init] fails with that same failure; otherwise the recovered
    address is bound as the proxy, and [init] completes with it as soon as
    the placeholder signature is obtained.  A completed [init] never has
    an empty address bound.  (A zero address carried by the failure is
    bound like any other.) *)
Theorem init_address_resolution (env : Env) (sg : Signer) (url : string)
    (opts : option IMEVBoostAccountBuilderOpts) (w : World)
    (owner data code : string) :
  let instance := constructor env sg url opts in
  let w1 := after env ActGetAddress w in
  let call := ActGetSenderAddress (address (entryPoint instance)) code in
  let w2 := after env call w1 in
  let sign := ActSignMessage (arrayify_keccak256 "0xdead") in
  signer_address sg w = Ok owner ->
  encodeFunctionData env MEVBoostAccountFactory_abi "createAccount"
    [VAddress owner; VAddress (address (mevBoostPaymaster instance)); VUint 0]
  = Ok data ->
  hexConcat [address (factory instance); data] = Ok code ->
  (snd (init_try env instance w) = w2 /\ trace w2 = (trace w1 ++ [call])%list)
  /\ match rpc_getSenderAddress env w1 (address (entryPoint instance)) code with
     | Ok _ =>
         init env sg url opts w
         = (Err (Error "getSenderAddress: unexpected result"), w2)
     | Err e =>
         if truthy (errorArgs_sender e) then
           init_catch e (set_initCode code instance)
           = Ok (set_proxy (connect (js_string (errorArgs_sender e)))
                   (set_initCode code instance))
           /\ match signer_sign sg (arrayify_keccak256 "0xdead") w2 with
              | Ok sig =>
                  exists this,
                    init env sg url opts w = (Ok this, after env sign w2)
                    /\ proxy this = connect (js_string (errorArgs_sender e))
                    /\ Op.sender (currOp this) = js_string (errorArgs_sender e)
                    /\ initCode this = code
              | Err e' => init env sg url opts w = (Err e', after env sign w2)
              end
         else init env sg url opts w = (Err e, w2)
     end
  /\ forall this w', init env sg url opts w = (Ok this, w') ->
                     address (proxy this) <> "".
Proof.
  intros instance w1 call w2 sign Hown Henc Hcat.
  pose proof (init_try_issued env sg url opts w owner data code Hown Henc Hcat)
    as Htry.
  cbv zeta in Htry. fold instance in Htry. fold w1 in Htry. fold call in Htry.
  fold w2 in Htry.
  split; [split|split].
  - rewrite Htry. destruct (rpc_getSenderAddress env _ _ _); reflexivity.
  - reflexivity.
  - unfold init. fold instance. rewrite Htry.
    destruct (rpc_getSenderAddress env w1 _ code) as [u|e]; [reflexivity|].
    unfold init_catch.
    destruct (truthy (errorArgs_sender e)); simpl; [|reflexivity].
    split; [reflexivity|].
    unfold request, await. simpl.
    destruct (signer_sign sg _ w2) as [sig|e']; [|reflexivity].
    eexists. split; [reflexivity|].
    unfold init_register.
    destruct (paymasterMiddleware_of opts); repeat split; reflexivity.
  - intros this w' H. apply init_ok_inv in H.
    destruct H as (error & i1 & w0 & sig & _ & Ht & ->).
    assert (Hp : address (proxy (init_register opts sig
               (set_proxy (connect (js_string (errorArgs_sender error))) i1)))
            = js_string (errorArgs_sender error)).
    { unfold init_register.
      destruct (paymasterMiddleware_of opts); reflexivity. }
    rewrite Hp.
    destruct (errorArgs_sender error) as [| |s]; simpl in Ht; try discriminate.
    simpl. intros ->. discriminate.
Qed.

Lemma init_address_resolution_witness :
  exists this,
    fst (init Sample.mainnet Sample.wallet "http://localhost:8545" None
              (Sample.start 0)) = Ok this
    /\ proxy this = connect Sample.account
    /\ Op.sender (currOp this) = Sample.account.
Proof.
  destruct (proj1 (proj2 (init_address_resolution Sample.mainnet Sample.wallet
              "http://localhost:8545" None (Sample.start 0) Sample.owner
              "0x5fbfb9cf"
              "0x33333333333333333333333333333333333333335fbfb9cf"
              eq_refl eq_refl eq_refl))) as [_ [this [H1 [H2 [H3 _]]]]].
  exists this. rewrite H1. repeat split; assumption.
Defined.

(** C1, as stated, fails: when the entry point reverts with the zero
    address as sender, [init] completes with the zero address bound as the
    proxy and seeded as the sender. *)
Lemma init_binds_zero_address :
  exists this w',
    init (Sample.chain (Err (Sample.SenderAddressResult AddressZero))
                       0 5000 12000)
         Sample.wallet "http://localhost:8545" None (Sample.start 0)
    = (Ok this, w')
    /\ address (proxy this) = AddressZero
    /\ Op.sender (currOp this) = AddressZero.
Proof.
  eexists. eexists. split; [reflexivity|]. split; reflexivity.
Qed.

(** ** The account resolution middleware *)

Lemma length_append (s t : string) :
  String.length (s ++ t) = (String.length s + String.length t)%nat.
Proof. induction s as [|c s IH]; simpl; [reflexivity | now rewrite IH]. Qed.

Lemma toLowerCase_length (s : string) :
  String.length (toLowerCase s) = String.length s.
Proof. induction s as [|c s IH]; simpl; [reflexivity | now rewrite IH]. Qed.

(** The digits [hexlify] leaves are those of its argument. *)
Lemma hexlify_digits (s h : string) :
  hexlify s = Ok h ->
  (String.length (substring2 h) + 2 = String.length s)%nat.
Proof.
  unfold hexlify.
  destruct s as [|c0 [|c1 digits]]; simpl; try discriminate.
  destruct ((c0 =? "0")%char && (c1 =? "x")%char && allHex digits);
    [|discriminate].
  destruct (Nat.even _); [|discriminate].
  intros H. inversion H. simpl. rewrite toLowerCase_length. lia.
Qed.

(** A failure of [hexConcat] is a plain error. *)
Lemma hexConcat_from_plain (items : list string) (acc : string) (e : JsError) :
  hexConcat_from acc items = Err e -> errorArgs e = None.
Proof.
  revert acc. induction items as [|item rest IH]; simpl; intros acc.
  - discriminate.
  - unfold hexlify. destruct (isHexString item).
    + destruct (Nat.even _).
      * apply IH.
      * intros H; inversion H; reflexivity.
    + intros H; inversion H; reflexivity.
Qed.

(** Init code that ends in an encoded call is not the empty byte string. *)
Lemma hexConcat_nonempty (a data code : string) :
  hexConcat [a; data] = Ok code ->
  (2 < String.length data)%nat ->
  code <> "0x".
Proof.
  unfold hexConcat. simpl.
  destruct (hexlify a) as [ha|e] eqn:Ha; [|discriminate].
  destruct (hexlify data) as [hd|e] eqn:Hd; [|discriminate].
  intros H Hlen. inversion H. subst code.
  apply hexlify_digits in Hd.
  intros Heq. apply (f_equal String.length) in Heq.
  simpl in Heq. rewrite length_append in Heq. lia.
Qed.

(** C2: on a builder that [init] resolved, the account resolution
    middleware fetches the sender's nonce from the entry point; with nonce
    zero it sets the operation's init code to the init code computed at
    initialization, which is not empty; with a nonce greater than zero it
    sets it to the empty byte string "0x".  Nonce zero is the only case
    that attaches init code.  If the nonce cannot be fetched the
    middleware fails with that failure. *)
Theorem resolveAccount_selects_initCode (env : Env) (sg : Signer)
    (url : string) (opts : option IMEVBoostAccountBuilderOpts)
    (w0 w1 : World) (owner data : string) (this : MEVBoostAccount)
    (ctx : Ctx) (w : World) :
  encoder_emits_selector env ->
  signer_address sg w0 = Ok owner ->
  encodeFunctionData env MEVBoostAccountFactory_abi "createAccount"
    [VAddress owner;
     VAddress (address (mevBoostPaymaster (constructor env sg url opts)));
     VUint 0] = Ok data ->
  init env sg url opts w0 = (Ok this, w1) ->
  let fetch :=
    ActGetNonce (address (entryPoint this)) (Op.sender (op ctx)) 0 in
  match rpc_getNonce env w (address (entryPoint this)) (Op.sender (op ctx)) 0
  with
  | Ok n =>
      exists ctx',
        resolveAccount env this ctx w = (Ok ctx', after env fetch w)
        /\ Op.nonce (op ctx') = n
        /\ (n = 0 -> Op.initCode (op ctx') = initCode this
                     /\ initCode this <> "0x")
        /\ (0 < n -> Op.initCode (op ctx') = "0x")
        /\ (Op.initCode (op ctx') <> "0x" <-> n = 0)
  | Err e => resolveAccount env this ctx w = (Err e, after env fetch w)
  end.
Proof.
  intros Hsel Hown Henc Hinit fetch.
  assert (Hcode : initCode this <> "0x").
  { destruct (hexConcat [address (factory (constructor env sg url opts)); data])
      as [code|e] eqn:Hcat.
    - pose proof (init_try_issued env sg url opts w0 owner data code
                    Hown Henc Hcat) as Htry. cbv zeta in Htry.
      apply init_ok_inv in Hinit.
      destruct Hinit as (error & i1 & w2 & sig & Htry' & _ & ->).
      rewrite Htry in Htry'.
      assert (Hi1 : i1 = set_initCode code (constructor env sg url opts)).
      { destruct (rpc_getSenderAddress env _ _ _); inversion Htry'; reflexivity. }
      subst i1.
      assert (Hic : initCode (init_register opts sig
                (set_proxy (connect (js_string (errorArgs_sender error)))
                   (set_initCode code (constructor env sg url opts)))) = code).
      { unfold init_register. destruct (paymasterMiddleware_of opts); reflexivity. }
      rewrite Hic. apply (hexConcat_nonempty _ data code Hcat).
      apply (Hsel _ _ _ _ Henc).
    - exfalso.
      unfold init, init_try in Hinit. rewrite request_run in Hinit.
      change (signer (constructor env sg url opts)) with sg in Hinit.
      rewrite Hown, Henc, Hcat in Hinit.
      apply hexConcat_from_plain in Hcat.
      unfold init_catch, errorArgs_sender in Hinit. rewrite Hcat in Hinit.
      simpl in Hinit. discriminate Hinit. }
  unfold resolveAccount, bind. rewrite request_run.
  destruct (rpc_getNonce env w _ _ 0) as [n|e]; [|reflexivity].
  eexists. split; [reflexivity|]. simpl. split; [reflexivity|].
  destruct (Z.eqb_spec n 0) as [->|Hn].
  - split; [now split|]. split; [lia|]. split; [reflexivity | intros _; exact Hcode].
  - split; [contradiction|]. split; [reflexivity|].
    split; [intros H; now elim H | contradiction].
Qed.

Lemma sample_encoder_emits_selector (reply : Result unit) (n h s : Z) :
  encoder_emits_selector (Sample.chain reply n h s).
Proof.
  intros abi name args data. simpl. unfold Sample.encoder.
  repeat match goal with
         | |- context [match ?x with _ => _ end] => destruct x
         end;
    intros H; inversion H; simpl; lia.
Qed.

Lemma resolveAccount_selects_initCode_witness :
  exists ctx',
    fst (resolveAccount Sample.mainnet Sample.builder
           (mkCtx Sample.defaults "" 1) (Sample.start 0)) = Ok ctx'
    /\ Op.initCode (op ctx') = initCode Sample.builder
    /\ initCode Sample.builder <> "0x".
Proof.
  pose proof (resolveAccount_selects_initCode Sample.mainnet Sample.wallet
                "http://localhost:8545" None (Sample.start 0) _ Sample.owner
                "0x5fbfb9cf" Sample.builder (mkCtx Sample.defaults "" 1)
                (Sample.start 0)
                (sample_encoder_emits_selector _ _ _ _)
                eq_refl eq_refl eq_refl) as H.
  destruct H as [ctx' [H1 [_ [H3 _]]]].
  exists ctx'. rewrite H1. split; [reflexivity|]. apply H3. reflexivity.
Defined.

(** ** The call-data setters *)

Lemma setEncoded_frame (env : Env) (name : string) (args : list AbiValue)
    (this : MEVBoostAccount) :
  same_but_callData this (snd (setEncoded env name args this)).
Proof.
  unfold setEncoded.
  destruct (encodeFunctionData env MEVBoostAccount_abi name args);
    simpl; repeat split; reflexivity.
Qed.

(** C7: each of [execute], [executeBatch], [boostExecute] and
    [boostExecuteBatch] leaves the instance as it was except for the call
    data of the operation-in-progress: sender, nonce, init code, the gas
    fields and the signature are unchanged, and so are the defaults, the
    middleware registered and the builder's own fields. *)
Theorem setters_change_callData_only (env : Env) (this : MEVBoostAccount) :
  (forall to value data,
      same_but_callData this (snd (execute env to value data this)))
  /\ (forall to value data,
         same_but_callData this (snd (executeBatch env to value data this)))
  /\ (forall config to value data,
         same_but_callData this
           (snd (boostExecute env config to value data this)))
  /\ (forall config to value data,
         same_but_callData this
           (snd (boostExecuteBatch env config to value data this))).
Proof.
  repeat split; intros; apply setEncoded_frame.
Qed.

Lemma encodeAll_accepts (enc : AbiValue -> Result string)
    (items : list AbiValue) :
  (forall v, In v items -> exists h, enc v = Ok h) ->
  exists encodings, encodeAll enc items = Ok encodings.
Proof.
  induction items as [|item rest IH]; intros Hall; simpl.
  - now eexists.
  - destruct (Hall item (or_introl eq_refl)) as [h ->].
    destruct IH as [t ->]; [|now eexists].
    intros v Hv. apply Hall. now right.
Qed.

(** Well-formed arrays are laid out whatever their three lengths are. *)
Lemma encodeBatch_accepts (selector : string) (to : list string)
    (value : list Z) (data : list string) :
  forallb isAddress to = true ->
  forallb isUint256 value = true ->
  forallb isBytes data = true ->
  exists callData,
    encodeBatch selector (map VAddress to) (map VUint value)
                (map VBytes data) = Ok callData.
Proof.
  intros Hto Hvalue Hdata. unfold encodeBatch.
  rewrite forallb_forall in Hto, Hvalue, Hdata.
  assert (Ha : exists a, encodeStaticArray encodeAddress (map VAddress to)
                         = Ok a).
  { unfold encodeStaticArray.
    destruct (encodeAll_accepts encodeAddress (map VAddress to)) as [l ->];
      [|now eexists].
    intros x Hx. apply in_map_iff in Hx. destruct Hx as (a & <- & Hin).
    simpl. rewrite (Hto a Hin). now eexists. }
  assert (Hv : exists v, encodeStaticArray encodeUint256 (map VUint value)
                         = Ok v).
  { unfold encodeStaticArray.
    destruct (encodeAll_accepts encodeUint256 (map VUint value)) as [l ->];
      [|now eexists].
    intros x Hx. apply in_map_iff in Hx. destruct Hx as (z & <- & Hin).
    simpl. rewrite (Hvalue z Hin). now eexists. }
  assert (Hd : exists d, encodeBytesArray (map VBytes data) = Ok d).
  { unfold encodeBytesArray.
    destruct (encodeAll_accepts encodeBytes (map VBytes data)) as [l ->];
      [|now eexists].
    intros x Hx. apply in_map_iff in Hx. destruct Hx as (b & <- & Hin).
    simpl. rewrite (Hdata b Hin). now eexists. }
  destruct Ha as [a ->]. destruct Hv as [v ->]. destruct Hd as [d ->].
  now eexists.
Qed.

(** C5, as amended: [executeBatch] compares no lengths.  It hands its
    three arrays to the encoder; the call data the encoder returns is
    stored on the operation-in-progress, and the call fails, with the
    instance and its call data as before the call, exactly when the
    encoder rejects the arguments.  With an encoder that lays the three
    arrays out as the ABI does, each on its own, well-formed arrays are
    accepted whatever their lengths. *)
Theorem executeBatch_leaves_lengths_to_encoder (env : Env) (to : list string)
    (value : list Z) (data : list string) (this : MEVBoostAccount) :
  let args := [VArray (map VAddress to); VArray (map VUint value);
               VArray (map VBytes data)] in
  executeBatch env to value data this =
    match encodeFunctionData env MEVBoostAccount_abi "executeBatch" args with
    | Ok callData => (Ok tt, setCallData callData this)
    | Err e => (Err e, this)
    end
  /\ ((exists e, fst (executeBatch env to value data this) = Err e)
      <-> (exists e,
              encodeFunctionData env MEVBoostAccount_abi "executeBatch" args
              = Err e))
  /\ (forall selector,
         encodeFunctionData env MEVBoostAccount_abi "executeBatch" args
         = encodeBatch selector (map VAddress to) (map VUint value)
                       (map VBytes data) ->
         forallb isAddress to = true ->
         forallb isUint256 value = true ->
         forallb isBytes data = true ->
         exists callData,
           executeBatch env to value data this
           = (Ok tt, setCallData callData this)).
Proof.
  intros args. unfold executeBatch, setEncoded. fold args.
  split; [|split].
  - destruct (encodeFunctionData env MEVBoostAccount_abi "executeBatch" args);
      reflexivity.
  - destruct (encodeFunctionData env MEVBoostAccount_abi "executeBatch" args)
      as [cd|e]; simpl; split; intros [e' H];
      try discriminate H; now exists e.
  - intros selector Henc Hto Hvalue Hdata.
    destruct (encodeBatch_accepts selector to value data Hto Hvalue Hdata)
      as [cd Hcd].
    rewrite Henc, Hcd. now exists cd.
Qed.

Lemma executeBatch_leaves_lengths_to_encoder_witness :
  exists callData,
    executeBatch (withEncoder abiEncoder Sample.mainnet)
                 [Sample.owner] [] ["0x"; "0x01"] Sample.builder
    = (Ok tt, setCallData callData Sample.builder).
Proof.
  exact (proj2 (proj2 (executeBatch_leaves_lengths_to_encoder
                         (withEncoder abiEncoder Sample.mainnet)
                         [Sample.owner] [] ["0x"; "0x01"] Sample.builder))
           "0x47e1da2a" eq_refl eq_refl eq_refl eq_refl).
Defined.

(** C5, as stated, fails: with two targets, three values and two data
    items, laid out as the ABI lays them out, [executeBatch] succeeds and
    stores the call data on the operation-in-progress. *)
Lemma executeBatch_accepts_unequal_lengths :
  exists callData,
    executeBatch (withEncoder abiEncoder Sample.mainnet)
                 [Sample.owner; Sample.account] [1; 2; 3] ["0x"; "0x"]
                 Sample.builder
    = (Ok tt, setCallData callData Sample.builder)
    /\ Op.callData (currOp (setCallData callData Sample.builder)) = callData
    /\ callData <> Op.callData (currOp Sample.builder).
Proof.
  eexists. split; [vm_compute; reflexivity|]. split; [reflexivity|].
  discriminate.
Qed.

(** ** Stability of the proxy and of the init code *)

Lemma setEncoded_keeps (env : Env) (name : string) (args : list AbiValue)
    (this : MEVBoostAccount) :
  proxy (snd (setEncoded env name args this)) = proxy this
  /\ initCode (snd (setEncoded env name args this)) = initCode this.
Proof.
  destruct (setEncoded_frame env name args this)
    as (_ & _ & _ & _ & _ & Hi & Hp & _).
  now split.
Qed.

Lemma buildOp_keeps (env : Env) (ep : string) (chainId : Z)
    (this this' : MEVBoostAccount) (w w' : World) (r : Result Op.UserOperation) :
  buildOp env ep chainId this w = (r, this', w') ->
  proxy this' = proxy this /\ initCode this' = initCode this.
Proof.
  unfold buildOp.
  destruct (runStack env this (middlewareStack this) _ w) as [[ctx|e] w0];
    intros H; inversion H; now split.
Qed.

Lemma perform_keeps (env : Env) (c : PublicOp) (this : MEVBoostAccount)
    (w : World) :
  proxy (fst (perform env c (this, w))) = proxy this
  /\ initCode (fst (perform env c (this, w))) = initCode this.
Proof.
  destruct c as [to v d | to v d | cfg to v d | cfg to v d | h dl iv fuel | ep id];
    simpl.
  - apply setEncoded_keeps.
  - apply setEncoded_keeps.
  - apply setEncoded_keeps.
  - apply setEncoded_keeps.
  - destruct (boostWait env this h dl iv fuel w) as [[r w']|]; now split.
  - destruct (buildOp env ep id this w) as [[r this'] w'] eqn:Hb.
    simpl. apply (buildOp_keeps _ _ _ _ _ _ _ _ Hb).
Qed.

(** C8: whatever public operations are invoked on a builder, in whatever
    order ([execute], [executeBatch], [boostExecute], [boostExecuteBatch],
    [boostWait], a run of the middleware), its proxy and its init code
    stay the ones it had: after [init] they are never reassigned. *)
Theorem proxy_and_initCode_stable (env : Env) (calls : list PublicOp)
    (this : MEVBoostAccount) (w : World) :
  proxy (fst (performAll env calls (this, w))) = proxy this
  /\ initCode (fst (performAll env calls (this, w))) = initCode this.
Proof.
  unfold performAll. revert this w.
  induction calls as [|c calls IH]; intros this w; cbn [fold_left].
  - now split.
  - destruct (perform env c (this, w)) as [this1 w1] eqn:Hc.
    destruct (IH this1 w1) as [Hp Hi].
    destruct (perform_keeps env c this w) as [Hp1 Hi1].
    rewrite Hc in Hp1, Hi1. simpl in Hp1, Hi1.
    rewrite Hp, Hi. now split.
Qed.

(** ** The settlement waiter *)

Section Waiting.

Variable env : Env.
Variable this : MEVBoostAccount.
Variable userOpHash : string.
Variable deadline : Z.
Variable block : Block.
Variable interval : Z.

#[local] Abbreviation paymaster := (address (mevBoostPaymaster this)).
#[local] Abbreviation query := (queryAction this userOpHash block).
#[local] Abbreviation sleep := (ActSetTimeout interval).

(** One turn of the loop. *)
Lemma boostWait_loop_step (fuel : nat) (w : World) :
  boostWait_loop env this userOpHash deadline block interval (S fuel) w =
    if Date_now w <? deadline then
      match rpc_queryFilter env w paymaster
              (SettleUserOp None (Some userOpHash)) (queryFrom block) with
      | Err e => Some (Err e, after env query w)
      | Ok [] =>
          boostWait_loop env this userOpHash deadline block interval fuel
                         (after env sleep (after env query w))
      | Ok (first :: _) => Some (Ok (Some first), after env query w)
      end
    else Some (Ok None, w).
Proof.
  cbn [boostWait_loop]. destruct (Date_now w <? deadline); [|reflexivity].
  rewrite request_run.
  destruct (rpc_queryFilter env w paymaster _ _) as [[|first others]|e];
    reflexivity.
Qed.

(** Whatever the loop returns, it returns as the contract says. *)
Lemma boostWait_loop_polling (fuel : nat) :
  forall w r w',
    boostWait_loop env this userOpHash deadline block interval fuel w
    = Some (r, w') ->
    polling env paymaster userOpHash (queryFrom block) deadline interval w r w'.
Proof.
  induction fuel as [|fuel IH]; intros w r w' H.
  - discriminate H.
  - rewrite boostWait_loop_step in H.
    destruct (Z.ltb_spec (Date_now w) deadline) as [Hlt|Hge].
    + destruct (rpc_queryFilter env w paymaster _ _)
        as [[|first others]|e] eqn:Hq.
      * apply polling_again; [assumption | assumption |].
        apply IH. exact H.
      * inversion H; subst. eapply polling_found; eassumption.
      * inversion H; subst. apply polling_failed; assumption.
    + inversion H; subst. apply polling_elapsed. assumption.
Qed.

(** More fuel does not change what the loop returns. *)
Lemma boostWait_loop_fuel (fuel : nat) :
  forall w r w' fuel',
    boostWait_loop env this userOpHash deadline block interval fuel w
    = Some (r, w') ->
    (fuel <= fuel')%nat ->
    boostWait_loop env this userOpHash deadline block interval fuel' w
    = Some (r, w').
Proof.
  induction fuel as [|fuel IH]; intros w r w' fuel' H Hle.
  - discriminate H.
  - destruct fuel' as [|fuel']; [lia|].
    rewrite boostWait_loop_step in *.
    destruct (Date_now w <? deadline); [|assumption].
    destruct (rpc_queryFilter env w paymaster _ _) as [[|first others]|e];
      try assumption.
    apply IH; [assumption | lia].
Qed.

(** With timers that let the clock advance, the loop returns. *)
Lemma boostWait_loop_returns :
  timers_advance env ->
  forall (n : nat) (w : World),
    deadline - Date_now w <= Z.of_nat n ->
    exists r w',
      boostWait_loop env this userOpHash deadline block interval (S n) w
      = Some (r, w').
Proof.
  intros Htimer. induction n as [|n IH]; intros w Hn;
    rewrite boostWait_loop_step.
  - destruct (Z.ltb_spec (Date_now w) deadline) as [Hlt|Hge]; [lia|].
    now eexists; eexists.
  - destruct (Z.ltb_spec (Date_now w) deadline) as [Hlt|Hge].
    2: now eexists; eexists.
    destruct (rpc_queryFilter env w paymaster _ _) as [[|first others]|e].
    2, 3: now eexists; eexists.
    apply IH.
    pose proof (Htimer (after env query w) interval) as Ht.
    unfold Date_now, after in *. cbn [clock] in *. lia.
Qed.

Lemma in_polls (a : Action) (k : nat) :
  In a (polls query sleep k) -> a = query \/ a = sleep.
Proof.
  induction k as [|k IH]; simpl.
  - contradiction.
  - intros [H | [H | H]]; [now left | now right | now apply IH].
Qed.

(** The requests of a wait: polls without a match, then the answered
    query if the wait did not end on the deadline. *)
Lemma polling_trace (w : World) (r : Result (option Event)) (w' : World) :
  polling env paymaster userOpHash (queryFrom block) deadline interval w r w' ->
  exists k,
    trace w' = (trace w ++ polls query sleep k ++ lastRequest query r)%list.
Proof.
  induction 1 as [w Hge | w first others Hlt Hq | w e Hlt Hq
                  | w r w' Hlt Hq Hrest [k IH]].
  - exists O. simpl. now rewrite app_nil_r.
  - exists O. reflexivity.
  - exists O. reflexivity.
  - exists (S k). rewrite IH. cbn [after trace polls].
    rewrite <- !app_assoc. reflexivity.
Qed.

(** A wait that ends with null ends on or after the deadline. *)
Lemma polling_null (w : World) (r : Result (option Event)) (w' : World) :
  polling env paymaster userOpHash (queryFrom block) deadline interval w r w' ->
  r = Ok None -> deadline <= Date_now w'.
Proof.
  induction 1; intros Hr; try discriminate; auto.
Qed.

End Waiting.

(** C4: a call of [boostWait] returns, and as its contract says.  The
    chain head is fetched once, first.  Then the settlement log is queried
    with the filter on the operation hash, from 100 blocks behind that
    head (from block 0 if the head is lower), with a sleep of the poll
    interval after every query without a match; the result is the first
    event of the first answer that has one, to a query issued before the
    deadline, and null, not an error, once the deadline has elapsed
    without a match.  An absent deadline is 30 seconds from the
    invocation, an absent poll interval 5 seconds.  (A failure of the head
    fetch or of a query is the failure of the call.) *)
Theorem boostWait_polls_until_deadline (env : Env) (this : MEVBoostAccount)
    (userOpHash : string) (deadlineMs waitIntervalMs : option Z) (w : World) :
  timers_advance env ->
  let deadline := deadline_or_default deadlineMs w in
  let interval := interval_or_default waitIntervalMs in
  let head := ActGetBlock "latest" in
  (deadline_or_default None w = Date_now w + 30000
   /\ (forall d, d <> 0 -> deadline_or_default (Some d) w = d)
   /\ interval_or_default None = 5000
   /\ (forall ms, interval_or_default (Some ms) = ms))
  /\ exists fuel r w',
       (forall fuel', (fuel <= fuel')%nat ->
          boostWait env this userOpHash deadlineMs waitIntervalMs fuel' w
          = Some (r, w'))
       /\ match rpc_getBlock env w "latest" with
          | Err e => r = Err e /\ w' = after env head w
          | Ok block =>
              let query := queryAction this userOpHash block in
              let sleep := ActSetTimeout interval in
              polling env (address (mevBoostPaymaster this)) userOpHash
                      (queryFrom block) deadline interval
                      (after env head w) r w'
              /\ (exists k,
                     trace w' = (trace w ++ head :: polls query sleep k
                                         ++ lastRequest query r)%list)
              /\ (r = Ok None -> deadline <= Date_now w')
              /\ (100 <= number block -> queryFrom block = number block - 100)
          end.
Proof.
  intros Htimer deadline interval head. split.
  { repeat split.
    intros d Hd. unfold deadline_or_default.
    destruct (Z.eqb_spec d 0); [contradiction | reflexivity]. }
  destruct (rpc_getBlock env w "latest") as [block|e] eqn:Hb.
  - destruct (boostWait_loop_returns env this userOpHash deadline block interval
                Htimer (Z.to_nat (deadline - Date_now (after env head w)))
                (after env head w)) as (r & w' & Hrun); [lia|].
    exists (S (Z.to_nat (deadline - Date_now (after env head w)))), r, w'.
    split.
    + intros fuel' Hle. unfold boostWait. rewrite request_run, Hb.
      apply (boostWait_loop_fuel _ _ _ _ _ _ _ _ _ _ _ Hrun Hle).
    + apply boostWait_loop_polling in Hrun.
      split; [exact Hrun|]. split; [|split].
      * destruct (polling_trace _ _ _ _ _ _ _ _ _ Hrun) as [k Hk].
        exists k. rewrite Hk. cbn [after trace].
        rewrite <- app_assoc. reflexivity.
      * apply (polling_null _ _ _ _ _ _ _ _ _ Hrun).
      * intros H. unfold queryFrom. lia.
  - exists 0%nat, (Err e), (after env head w). split; [|now split].
    intros fuel' _. unfold boostWait. rewrite request_run, Hb. reflexivity.
Qed.

Lemma sample_timers_advance (reply : Result unit) (n h s : Z) :
  timers_advance (Sample.chain reply n h s).
Proof. intros w ms. simpl. lia. Qed.

Lemma boostWait_polls_until_deadline_witness :
  exists fuel r w',
    boostWait Sample.mainnet Sample.builder Sample.opHash None None fuel
              (Sample.start 1000) = Some (r, w')
    /\ polling Sample.mainnet
         (address (mevBoostPaymaster Sample.builder)) Sample.opHash 4900 31000 5000
         (after Sample.mainnet (ActGetBlock "latest") (Sample.start 1000)) r w'.
Proof.
  destruct (proj2 (boostWait_polls_until_deadline Sample.mainnet Sample.builder
                     Sample.opHash None None (Sample.start 1000)
                     (sample_timers_advance _ _ _ _)))
    as (fuel & r & w' & Hrun & Hpoll & _).
  exists fuel, r, w'. split; [apply Hrun; lia | exact Hpoll].
Defined.

Lemma queries_app (s t : list Action) :
  queries (s ++ t) = (queries s + queries t)%nat.
Proof.
  induction s as [|a s IH]; simpl; [reflexivity|].
  destruct a; simpl; rewrite IH; reflexivity.
Qed.

(** C6, as amended: called with a deadline other than 0 that is strictly
    in the past, [boostWait] fetches the chain head and, if that succeeds,
    returns null at once, without a single query of the settlement log; if
    the head cannot be fetched, the call fails with that failure. *)
Theorem boostWait_past_deadline (env : Env) (this : MEVBoostAccount)
    (userOpHash : string) (d : Z) (waitIntervalMs : option Z) (fuel : nat)
    (w : World) :
  d <> 0 ->
  d < Date_now w ->
  let head := ActGetBlock "latest" in
  boostWait env this userOpHash (Some d) waitIntervalMs (S fuel) w =
    match rpc_getBlock env w "latest" with
    | Ok _ => Some (Ok None, after env head w)
    | Err e => Some (Err e, after env head w)
    end
  /\ trace (after env head w) = (trace w ++ [head])%list
  /\ queries (trace (after env head w)) = queries (trace w).
Proof.
  intros Hd Hpast head. split; [|split].
  - unfold boostWait. rewrite request_run.
    destruct (rpc_getBlock env w "latest") as [block|e]; [|reflexivity].
    rewrite boostWait_loop_step.
    assert (Hend : deadline_or_default (Some d) w = d).
    { unfold deadline_or_default. destruct (Z.eqb_spec d 0); [contradiction|].
      reflexivity. }
    rewrite Hend.
    destruct (Z.ltb_spec (Date_now (after env (ActGetBlock "latest") w)) d)
      as [Hlt|Hge]; [|reflexivity].
    exfalso. unfold Date_now, after in *. cbn [clock] in *. lia.
  - reflexivity.
  - cbn [after trace]. rewrite queries_app. simpl. lia.
Qed.

Lemma boostWait_past_deadline_witness :
  boostWait Sample.mainnet Sample.builder Sample.opHash (Some 500) None 1
            (Sample.start 1000)
  = Some (Ok None,
          after Sample.mainnet (ActGetBlock "latest") (Sample.start 1000)).
Proof.
  refine (proj1 (boostWait_past_deadline Sample.mainnet Sample.builder Sample.opHash
                   500 None 0 (Sample.start 1000) _ _)).
  - discriminate.
  - reflexivity.
Defined.

(** C6, as stated, fails: the deadline 0 is strictly in the past at clock
    time 1000, yet the waiter does not return at once; on a chain whose log
    never shows the settlement it queries the log six times, and returns
    null thirty seconds later. *)
Lemma boostWait_deadline_zero_polls :
  exists w',
    boostWait (Sample.chain (Err (Sample.SenderAddressResult Sample.account))
                            0 5000 1000000000)
              Sample.builder Sample.opHash (Some 0) None 10 (Sample.start 1000)
    = Some (Ok None, w')
    /\ 0 < Date_now (Sample.start 1000)
    /\ queries (trace w') = 6%nat
    /\ Date_now w' = 31070.
Proof.
  eexists. split; [vm_compute; reflexivity|]. repeat split.
Qed.

(** C9: a deadline argument of 0 is treated as an absent one.  The default
    deadline of 30 seconds from the invocation is substituted and the call
    runs as the call without a deadline does: after a head fetch that
    takes less than those 30 seconds the log is queried, instead of null
    being returned at once. *)
Theorem boostWait_zero_deadline_is_default (env : Env)
    (this : MEVBoostAccount) (userOpHash : string)
    (waitIntervalMs : option Z) (fuel : nat) (w : World) :
  deadline_or_default (Some 0) w = Date_now w + 30000
  /\ boostWait env this userOpHash (Some 0) waitIntervalMs fuel w
     = boostWait env this userOpHash None waitIntervalMs fuel w
  /\ forall block r w',
       rpc_getBlock env w "latest" = Ok block ->
       (latency env w (ActGetBlock "latest") < 30000)%N ->
       boostWait env this userOpHash (Some 0) waitIntervalMs fuel w
       = Some (r, w') ->
       exists rest,
         trace w' = (trace w ++ ActGetBlock "latest"
                             :: queryAction this userOpHash block :: rest)%list.
Proof.
  split; [reflexivity|]. split; [reflexivity|].
  intros block r w' Hb Hlat Hrun.
  unfold boostWait in Hrun. rewrite request_run, Hb in Hrun.
  destruct fuel as [|fuel]; [discriminate Hrun|].
  rewrite boostWait_loop_step in Hrun.
  destruct (Z.ltb_spec (Date_now (after env (ActGetBlock "latest") w))
                       (deadline_or_default (Some 0) w)) as [Hlt|Hge].
  2: { exfalso. unfold deadline_or_default, Date_now, after in Hge.
       cbn [clock Z.eqb] in Hge. lia. }
  destruct (rpc_queryFilter env _ _ _ _) as [[|first others]|e].
  - apply boostWait_loop_polling in Hrun.
    destruct (polling_trace _ _ _ _ _ _ _ _ _ Hrun) as [k Hk].
    eexists. rewrite Hk. cbn [after trace].
    rewrite <- !app_assoc. reflexivity.
  - inversion Hrun; subst. exists []. cbn [after trace].
    rewrite <- app_assoc. reflexivity.
  - inversion Hrun; subst. exists []. cbn [after trace].
    rewrite <- app_assoc. reflexivity.
Qed.

Lemma boostWait_zero_deadline_is_default_witness :
  exists r w' rest,
    boostWait Sample.mainnet Sample.builder Sample.opHash (Some 0) None 10
              (Sample.start 1000) = Some (r, w')
    /\ trace w' = ActGetBlock "latest"
                  :: queryAction Sample.builder Sample.opHash {| number := 5000 |}
                  :: rest.
Proof.
  destruct (boostWait Sample.mainnet Sample.builder Sample.opHash (Some 0) None 10
              (Sample.start 1000)) as [[r w']|] eqn:Hrun;
    [|vm_compute in Hrun; discriminate Hrun].
  destruct (proj2 (proj2 (boostWait_zero_deadline_is_default Sample.mainnet
              Sample.builder Sample.opHash None 10 (Sample.start 1000)))
              {| number := 5000 |} r w' eq_refl eq_refl Hrun) as [rest Hrest].
  exists r, w', rest. split; [reflexivity | exact Hrest].
Defined.

(** C10: in every run of [boostWait], with [b] the number of the head
    block it fetched, every query of the settlement log it issues starts
    at block max(0, b - 100): never at a negative block, and at block 0
    when the head is within the first 100 blocks. *)
Theorem boostWait_queries_from_clamped (env : Env) (this : MEVBoostAccount)
    (userOpHash : string) (deadlineMs waitIntervalMs : option Z) (fuel : nat)
    (w : World) (block : Block) (r : Result (option Event)) (w' : World) :
  rpc_getBlock env w "latest" = Ok block ->
  boostWait env this userOpHash deadlineMs waitIntervalMs fuel w
  = Some (r, w') ->
  exists issued,
    trace w' = (trace w ++ issued)%list
    /\ forall paymaster filter fromBlock,
         In (ActQueryFilter paymaster filter fromBlock) issued ->
         fromBlock = Z.max 0 (number block - 100)
         /\ 0 <= fromBlock
         /\ (number block <= 100 -> fromBlock = 0).
Proof.
  intros Hb Hrun.
  unfold boostWait in Hrun. rewrite request_run, Hb in Hrun.
  apply boostWait_loop_polling in Hrun.
  destruct (polling_trace _ _ _ _ _ _ _ _ _ Hrun) as [k Hk].
  eexists. split.
  { rewrite Hk. cbn [after trace]. rewrite <- app_assoc. reflexivity. }
  intros paymaster filter fromBlock Hin.
  assert (Hq : ActQueryFilter paymaster filter fromBlock
               = queryAction this userOpHash block).
  { cbn [app In] in Hin. destruct Hin as [Hin|Hin]; [discriminate Hin|].
    apply in_app_or in Hin. destruct Hin as [Hin|Hin].
    - apply in_polls in Hin. destruct Hin as [Hin|Hin];
        [exact Hin | discriminate Hin].
    - destruct r as [[ev|]|e]; simpl in Hin;
        try (destruct Hin as [Hin|[]]; now symmetry); contradiction. }
  unfold queryAction in Hq. inversion Hq. unfold queryFrom. lia.
Qed.

Lemma boostWait_queries_from_clamped_witness :
  exists r w' issued,
    boostWait (Sample.chain (Err (Sample.SenderAddressResult Sample.account))
                            0 40 2000)
              Sample.builder Sample.opHash None None 10 (Sample.start 1000)
    = Some (r, w')
    /\ trace w' = issued
    /\ forall paymaster filter fromBlock,
         In (ActQueryFilter paymaster filter fromBlock) issued ->
         fromBlock = 0.
Proof.
  destruct (boostWait (Sample.chain (Err (Sample.SenderAddressResult
                                            Sample.account)) 0 40 2000)
              Sample.builder Sample.opHash None None 10 (Sample.start 1000))
    as [[r w']|] eqn:Hrun; [|vm_compute in Hrun; discriminate Hrun].
  destruct (boostWait_queries_from_clamped
              (Sample.chain (Err (Sample.SenderAddressResult Sample.account))
                            0 40 2000)
              Sample.builder Sample.opHash None None 10 (Sample.start 1000)
              {| number := 40 |} r w' eq_refl Hrun)
    as [issued [Htrace Hfrom]].
  exists r, w', issued. split; [reflexivity|]. split; [exact Htrace|].
  intros paymaster filter fromBlock Hin.
  destruct (Hfrom paymaster filter fromBlock Hin) as [_ [_ H0]].
  apply H0. simpl. lia.
Defined.

(** ** Further properties of initialization *)

Lemma init_register_frame (opts : option IMEVBoostAccountBuilderOpts)
    (sig : string) (i : MEVBoostAccount) :
  signer (init_register opts sig i) = signer i
  /\ provider (init_register opts sig i) = provider i
  /\ entryPoint (init_register opts sig i) = entryPoint i
  /\ factory (init_register opts sig i) = factory i
  /\ mevBoostPaymaster (init_register opts sig i) = mevBoostPaymaster i
  /\ initCode (init_register opts sig i) = initCode i
  /\ proxy (init_register opts sig i) = proxy i.
Proof.
  unfold init_register.
  destruct (paymasterMiddleware_of opts); repeat split; reflexivity.
Qed.

(** X1: a completed [init] gives a builder connected as the caller asked:
    its signer and endpoint are the arguments, and the entry point, the
    factory and the paymaster are at the override given in the options,
    or at the default address when the override is absent or the empty
    string. *)
Theorem init_keeps_contract_references (env : Env) (sg : Signer)
    (url : string) (opts : option IMEVBoostAccountBuilderOpts)
    (w w' : World) (this : MEVBoostAccount) :
  init env sg url opts w = (Ok this, w') ->
  (signer this = sg
   /\ rpcUrl (provider this) = url
   /\ bundlerRpc (provider this) = override opts opt_overrideBundlerRpc)
  /\ (address (entryPoint this)
      = orDefault (override opts opt_entryPoint) (ERC4337_EntryPoint env)
      /\ address (factory this)
         = orDefault (override opts opt_factory) (MEVBoostAA_Factory env)
      /\ address (mevBoostPaymaster this)
         = orDefault (override opts opt_mevBoostPaymaster)
                     (MEVBoostAA_MEVBoostPaymaster env))
  /\ (forall d, orDefault None d = d /\ orDefault (Some "") d = d)
  /\ (forall s d, s <> "" -> orDefault (Some s) d = s).
Proof.
  intros H. apply init_ok_inv in H.
  destruct H as (error & i1 & w1 & sig & Htry & _ & ->).
  destruct (init_register_frame opts sig
              (set_proxy (connect (js_string (errorArgs_sender error))) i1))
    as (Hs & Hp & He & Hf & Hm & _ & _).
  rewrite Hs, Hp, He, Hf, Hm.
  apply init_try_frame in Htry.
  split; [|split; [|split]].
  - destruct Htry as [-> | [code ->]]; destruct opts; repeat split.
  - destruct Htry as [-> | [code ->]]; destruct opts; repeat split.
  - intros d. now split.
  - intros s d Hs'. unfold orDefault.
    destruct (String.eqb_spec s ""); [contradiction | reflexivity].
Qed.

Lemma init_keeps_contract_references_witness :
  address (entryPoint Sample.builder)
  = "0x5FF137D4b0FDCD49DcA30c7CF57E578a026d2789"
  /\ address (factory Sample.builder)
     = "0x3333333333333333333333333333333333333333"
  /\ address (mevBoostPaymaster Sample.builder)
     = "0x4444444444444444444444444444444444444444".
Proof.
  exact (proj1 (proj2 (init_keeps_contract_references Sample.mainnet
                         Sample.wallet "http://localhost:8545" None
                         (Sample.start 0) _ Sample.builder eq_refl))).
Defined.

(** X2: once the signer's address is known and the init code is formed,
    [init] makes these requests and no other, in this order: the signer's
    address, the simulated [getSenderAddress] call on the entry point with
    the init code, and, only if that call failed with a sender in its
    failure data, the signature of the constant message.  When the sender
    was not recovered [init] fails and the signer is never asked to
    sign. *)
Theorem init_request_sequence (env : Env) (sg : Signer) (url : string)
    (opts : option IMEVBoostAccountBuilderOpts) (w : World)
    (owner data code : string) (r : Result MEVBoostAccount) (w' : World) :
  let instance := constructor env sg url opts in
  let ep := address (entryPoint instance) in
  let resolved :=
    match rpc_getSenderAddress env (after env ActGetAddress w) ep code with
    | Err e => truthy (errorArgs_sender e)
    | Ok _ => false
    end in
  signer_address sg w = Ok owner ->
  encodeFunctionData env MEVBoostAccountFactory_abi "createAccount"
    [VAddress owner; VAddress (address (mevBoostPaymaster instance)); VUint 0]
  = Ok data ->
  hexConcat [address (factory instance); data] = Ok code ->
  init env sg url opts w = (r, w') ->
  trace w' = (trace w ++ [ActGetAddress; ActGetSenderAddress ep code]
                      ++ (if resolved
                          then [ActSignMessage (arrayify_keccak256 "0xdead")]
                          else []))%list
  /\ (resolved = false -> exists e, r = Err e).
Proof.
  intros instance ep resolved Hown Henc Hcat Hinit.
  pose proof (init_try_issued env sg url opts w owner data code Hown Henc Hcat)
    as Htry.
  cbv zeta in Htry. fold instance in Htry. fold ep in Htry.
  unfold init in Hinit. fold instance in Hinit. rewrite Htry in Hinit.
  subst resolved.
  destruct (rpc_getSenderAddress env (after env ActGetAddress w) ep code)
    as [u|e].
  - unfold init_catch in Hinit. simpl in Hinit. inversion Hinit; subst.
    split.
    + cbn [after trace]. rewrite <- app_assoc. reflexivity.
    + intros _. eexists. reflexivity.
  - unfold init_catch in Hinit.
    destruct (truthy (errorArgs_sender e)); cbn [negb] in Hinit.
    + rewrite request_run in Hinit.
      destruct (signer_sign _ _ _) as [sig|e'] in Hinit;
        inversion Hinit; subst; (split; [|discriminate]);
        cbn [after trace]; rewrite <- !app_assoc; reflexivity.
    + inversion Hinit; subst. split.
      * cbn [after trace]. rewrite <- app_assoc. reflexivity.
      * intros _. eexists. reflexivity.
Qed.

Lemma init_request_sequence_witness :
  trace (snd (init Sample.mainnet Sample.wallet "http://localhost:8545" None
                   (Sample.start 0)))
  = [ActGetAddress;
     ActGetSenderAddress "0x5FF137D4b0FDCD49DcA30c7CF57E578a026d2789"
       "0x33333333333333333333333333333333333333335fbfb9cf";
     ActSignMessage (arrayify_keccak256 "0xdead")].
Proof.
  exact (proj1 (init_request_sequence Sample.mainnet Sample.wallet
                  "http://localhost:8545" None (Sample.start 0) Sample.owner
                  "0x5fbfb9cf"
                  "0x33333333333333333333333333333333333333335fbfb9cf"
                  _ _ eq_refl eq_refl eq_refl eq_refl)).
Defined.

(** X3: a failure before the simulated call is the failure of [init].  If
    the signer cannot give its address, or the [createAccount] call cannot
    be encoded, and the error carries no sender, then [init] fails with
    that very error after the one request for the signer's address: the
    entry point is not called and nothing is signed. *)
Theorem init_fails_before_call (env : Env) (sg : Signer) (url : string)
    (opts : option IMEVBoostAccountBuilderOpts) (w : World) (e : JsError) :
  truthy (errorArgs_sender e) = false ->
  (signer_address sg w = Err e
   \/ exists owner,
        signer_address sg w = Ok owner
        /\ encodeFunctionData env MEVBoostAccountFactory_abi "createAccount"
             [VAddress owner;
              VAddress (address (mevBoostPaymaster
                                   (constructor env sg url opts)));
              VUint 0] = Err e) ->
  init env sg url opts w = (Err e, after env ActGetAddress w)
  /\ trace (after env ActGetAddress w) = (trace w ++ [ActGetAddress])%list.
Proof.
  intros Hplain Hfail. split; [|reflexivity].
  unfold init, init_try. rewrite request_run.
  change (signer (constructor env sg url opts)) with sg.
  destruct Hfail as [Hown | [owner [Hown Henc]]].
  - rewrite Hown. unfold init_catch. rewrite Hplain. reflexivity.
  - rewrite Hown, Henc. unfold init_catch. rewrite Hplain. reflexivity.
Qed.

Lemma init_fails_before_call_witness :
  init Sample.mainnet (brokenSigner (Error "locked")) "http://localhost:8545"
       None (Sample.start 0)
  = (Err (Error "locked"),
     after Sample.mainnet ActGetAddress (Sample.start 0)).
Proof.
  refine (proj1 (init_fails_before_call Sample.mainnet
                   (brokenSigner (Error "locked")) "http://localhost:8545"
                   None (Sample.start 0) (Error "locked") eq_refl _)).
  left. reflexivity.
Defined.

(** X4: the [catch] clause of [init] does not tell where a failure came
    from.  If the signer's [getAddress] fails with an error that carries a
    sender, that sender is bound as the proxy although the entry point was
    never called, and [init] completes, once the placeholder signature is
    obtained, with the init code still the empty "0x" of the
    constructor. *)
Theorem init_catch_is_not_selective (env : Env) (sg : Signer) (url : string)
    (opts : option IMEVBoostAccountBuilderOpts) (w : World) (e : JsError) :
  signer_address sg w = Err e ->
  truthy (errorArgs_sender e) = true ->
  let w1 := after env ActGetAddress w in
  let sign := ActSignMessage (arrayify_keccak256 "0xdead") in
  trace (after env sign w1) = (trace w ++ [ActGetAddress; sign])%list
  /\ match signer_sign sg (arrayify_keccak256 "0xdead") w1 with
     | Ok sig =>
         exists this,
           init env sg url opts w = (Ok this, after env sign w1)
           /\ proxy this = connect (js_string (errorArgs_sender e))
           /\ initCode this = "0x"
     | Err e' => init env sg url opts w = (Err e', after env sign w1)
     end.
Proof.
  intros Hown Hsender w1 sign. split.
  { unfold w1. cbn [after trace]. rewrite <- app_assoc. reflexivity. }
  unfold init, init_try. rewrite request_run.
  change (signer (constructor env sg url opts)) with sg.
  rewrite Hown. unfold init_catch. rewrite Hsender. cbn [negb].
  rewrite request_run. fold w1.
  change (signer (set_proxy (connect (js_string (errorArgs_sender e)))
                            (constructor env sg url opts))) with sg.
  destruct (signer_sign sg (arrayify_keccak256 "0xdead") w1) as [sig|e'];
    [|reflexivity].
  eexists. split; [reflexivity|].
  destruct (init_register_frame opts sig
              (set_proxy (connect (js_string (errorArgs_sender e)))
                         (constructor env sg url opts)))
    as (_ & _ & _ & _ & _ & Hi & Hp).
  split; [exact Hp | exact Hi].
Qed.

Lemma init_catch_is_not_selective_witness :
  exists this,
    fst (init Sample.mainnet
              (brokenSigner (Sample.SenderAddressResult Sample.account))
              "http://localhost:8545" None (Sample.start 0)) = Ok this
    /\ proxy this = connect Sample.account
    /\ initCode this = "0x".
Proof.
  destruct (proj2 (init_catch_is_not_selective Sample.mainnet
              (brokenSigner (Sample.SenderAddressResult Sample.account))
              "http://localhost:8545" None (Sample.start 0)
              (Sample.SenderAddressResult Sample.account) eq_refl eq_refl))
    as [this [H1 H2]].
  exists this. rewrite H1. split; [reflexivity | exact H2].
Defined.

(** ** Further properties of the middleware and of the setters *)

(** X5: the account resolution middleware makes exactly one request,
    [getNonce] with key 0 for the operation's sender, at the entry point
    of the builder, whatever entry point the context names.  On success it
    has changed the nonce and the init code of the operation and nothing
    else; on failure it fails with the failure of the request. *)
Theorem resolveAccount_frame (env : Env) (this : MEVBoostAccount) (ctx : Ctx)
    (w : World) :
  let fetch :=
    ActGetNonce (address (entryPoint this)) (Op.sender (op ctx)) 0 in
  snd (resolveAccount env this ctx w) = after env fetch w
  /\ trace (after env fetch w) = (trace w ++ [fetch])%list
  /\ match fst (resolveAccount env this ctx w) with
     | Ok ctx' =>
         ctx_entryPoint ctx' = ctx_entryPoint ctx
         /\ ctx_chainId ctx' = ctx_chainId ctx
         /\ Op.sender (op ctx') = Op.sender (op ctx)
         /\ Op.callData (op ctx') = Op.callData (op ctx)
         /\ Op.callGasLimit (op ctx') = Op.callGasLimit (op ctx)
         /\ Op.verificationGasLimit (op ctx') = Op.verificationGasLimit (op ctx)
         /\ Op.preVerificationGas (op ctx') = Op.preVerificationGas (op ctx)
         /\ Op.maxFeePerGas (op ctx') = Op.maxFeePerGas (op ctx)
         /\ Op.maxPriorityFeePerGas (op ctx') = Op.maxPriorityFeePerGas (op ctx)
         /\ Op.paymasterAndData (op ctx') = Op.paymasterAndData (op ctx)
         /\ Op.signature (op ctx') = Op.signature (op ctx)
     | Err e =>
         rpc_getNonce env w (address (entryPoint this)) (Op.sender (op ctx)) 0
         = Err e
     end.
Proof.
  intros fetch. unfold resolveAccount, bind. rewrite request_run.
  destruct (rpc_getNonce env w _ _ 0) as [n|e]; simpl; repeat split.
Qed.

(** X6: when the encoder rejects the arguments of a setter, whichever of
    the four it is, the setter fails with the encoder's error and the
    instance is as before the call: the call data set earlier stays. *)
Theorem setter_failure_keeps_instance (env : Env) (this : MEVBoostAccount)
    (e : JsError) :
  (forall to value data,
      encodeFunctionData env MEVBoostAccount_abi "execute"
        [VAddress to; VUint value; VBytes data] = Err e ->
      execute env to value data this = (Err e, this))
  /\ (forall to value data,
         encodeFunctionData env MEVBoostAccount_abi "executeBatch"
           [VArray (map VAddress to); VArray (map VUint value);
            VArray (map VBytes data)] = Err e ->
         executeBatch env to value data this = (Err e, this))
  /\ (forall config to value data,
         encodeFunctionData env MEVBoostAccount_abi "boostExecute"
           [VStruct config; VAddress to; VUint value; VBytes data] = Err e ->
         boostExecute env config to value data this = (Err e, this))
  /\ (forall config to value data,
         encodeFunctionData env MEVBoostAccount_abi "boostExecuteBatch"
           [VStruct config; VArray (map VAddress to);
            VArray (map VUint value); VArray (map VBytes data)] = Err e ->
         boostExecuteBatch env config to value data this = (Err e, this)).
Proof.
  repeat split; intros;
    unfold execute, executeBatch, boostExecute, boostExecuteBatch, setEncoded;
    match goal with H : _ = Err e |- _ => rewrite H end; reflexivity.
Qed.

Lemma setter_failure_keeps_instance_witness :
  boostExecuteBatch Sample.mainnet [VUint 1] ["0x01"] [1; 2] ["0x"]
                    Sample.builder
  = (Err (Error "array length mismatch"), Sample.builder).
Proof.
  exact (proj2 (proj2 (proj2 (setter_failure_keeps_instance Sample.mainnet
           Sample.builder (Error "array length mismatch"))))
           [VUint 1] ["0x01"] [1; 2] ["0x"] eq_refl).
Defined.

Lemma setEncoded_overrides (env : Env) (n1 n2 : string)
    (a1 a2 : list AbiValue) (this this2 : MEVBoostAccount) :
  setEncoded env n2 a2 (snd (setEncoded env n1 a1 this)) = (Ok tt, this2) ->
  setEncoded env n2 a2 this = (Ok tt, this2).
Proof.
  unfold setEncoded.
  destruct (encodeFunctionData env MEVBoostAccount_abi n2 a2) as [d2|e2];
    [|discriminate].
  destruct (encodeFunctionData env MEVBoostAccount_abi n1 a1) as [d1|e1];
    simpl; intros H; inversion H; reflexivity.
Qed.

(** X7: the last setter wins.  When a setter succeeds, the instance is
    what the same call would have given without the setter invoked before
    it, whether that earlier call succeeded or failed: call data is
    replaced, not accumulated. *)
Theorem last_setter_wins (env : Env) (c1 c2 : PublicOp)
    (this this1 this2 : MEVBoostAccount) (r1 : Result unit) :
  callSetter env c1 this = Some (r1, this1) ->
  callSetter env c2 this1 = Some (Ok tt, this2) ->
  callSetter env c2 this = Some (Ok tt, this2).
Proof.
  intros H1 H2.
  assert (Hthis1 : exists n1 a1, this1 = snd (setEncoded env n1 a1 this)).
  { destruct c1; simpl in H1; inversion H1;
      unfold execute, executeBatch, boostExecute, boostExecuteBatch in *;
      match goal with
      | H : setEncoded env ?n ?a this = _ |- _ =>
          exists n, a; rewrite H; reflexivity
      end. }
  destruct Hthis1 as (n1 & a1 & ->).
  destruct c2; simpl in H2 |- *; try discriminate H2;
    unfold execute, executeBatch, boostExecute, boostExecuteBatch in *;
    injection H2 as H2'; f_equal;
    apply (setEncoded_overrides _ _ _ _ _ _ _ H2').
Qed.

Lemma last_setter_wins_witness :
  callSetter Sample.mainnet (Call_execute "0x01" 5 "0x")
    (snd (executeBatch Sample.mainnet ["0x01"] [1] ["0x"] Sample.builder))
  = callSetter Sample.mainnet (Call_execute "0x01" 5 "0x") Sample.builder.
Proof.
  rewrite (last_setter_wins Sample.mainnet
             (Call_executeBatch ["0x01"] [1] ["0x"])
             (Call_execute "0x01" 5 "0x") Sample.builder _ _ _
             eq_refl eq_refl).
  reflexivity.
Defined.

Lemma setEncoded_keeps_all (env : Env) (name : string) (args : list AbiValue)
    (this : MEVBoostAccount) :
  set_currOp (currOp this) (snd (setEncoded env name args this)) = this.
Proof.
  unfold setEncoded.
  destruct (encodeFunctionData env MEVBoostAccount_abi name args);
    destruct this; reflexivity.
Qed.

Lemma perform_keeps_all (env : Env) (c : PublicOp) (this : MEVBoostAccount)
    (w : World) :
  set_currOp (currOp this) (fst (perform env c (this, w))) = this.
Proof.
  destruct c as [to v d | to v d | cfg to v d | cfg to v d | h dl iv fuel | ep id];
    simpl; try apply setEncoded_keeps_all.
  - destruct (boostWait env this h dl iv fuel w) as [[r w']|];
      destruct this; reflexivity.
  - unfold buildOp.
    destruct (runStack env this (middlewareStack this) _ w) as [[ctx|e] w0];
      destruct this; reflexivity.
Qed.

Lemma set_currOp_twice (o1 o2 : Op.UserOperation) (i : MEVBoostAccount) :
  set_currOp o1 (set_currOp o2 i) = set_currOp o1 i.
Proof. reflexivity. Qed.

(** X8: the public operations of the class change the
    operation-in-progress and nothing else.  After any sequence of
    [execute], [executeBatch], [boostExecute], [boostExecuteBatch],
    [boostWait] and middleware runs, the instance is the one before with
    its operation-in-progress replaced: the signer, the provider, the
    three contracts, the default operation and the middleware registered
    are the same. *)
Theorem public_ops_change_currOp_only (env : Env) (calls : list PublicOp)
    (this : MEVBoostAccount) (w : World) :
  fst (performAll env calls (this, w))
  = set_currOp (currOp (fst (performAll env calls (this, w)))) this.
Proof.
  unfold performAll. revert this w.
  induction calls as [|c calls IH]; intros this w; cbn [fold_left].
  - destruct this; reflexivity.
  - destruct (perform env c (this, w)) as [this1 w1] eqn:Hc.
    rewrite (IH this1 w1) at 1.
    pose proof (perform_keeps_all env c this w) as Hk.
    rewrite Hc in Hk. cbn [fst] in Hk.
    generalize (currOp (fst (fold_left (fun st c0 => perform env c0 st)
                                       calls (this1, w1)))).
    intros o. rewrite <- Hk. symmetry. apply set_currOp_twice.
Qed.

(** ** Further properties of the settlement waiter *)

Section Polling.

Variable env : Env.
Variable this : MEVBoostAccount.
Variable userOpHash : string.
Variable deadline : Z.
Variable block : Block.
Variable interval : Z.

#[local] Abbreviation paymaster := (address (mevBoostPaymaster this)).
#[local] Abbreviation query := (queryAction this userOpHash block).
#[local] Abbreviation filter := (SettleUserOp None (Some userOpHash)).

(** What a wait returns other than null is the answer to its last
    request. *)
Lemma polling_last (w : World) (r : Result (option Event)) (w' : World) :
  polling env paymaster userOpHash (queryFrom block) deadline interval w r w' ->
  match r with
  | Ok None => deadline <= Date_now w'
  | Ok (Some first) =>
      exists wq others,
        Date_now wq < deadline
        /\ rpc_queryFilter env wq paymaster filter (queryFrom block)
           = Ok (first :: others)
        /\ w' = after env query wq
  | Err e =>
      exists wq,
        Date_now wq < deadline
        /\ rpc_queryFilter env wq paymaster filter (queryFrom block) = Err e
        /\ w' = after env query wq
  end.
Proof.
  induction 1 as [w Hge | w first others Hlt Hq | w e Hlt Hq
                  | w r w' Hlt Hq Hrest IH].
  - exact Hge.
  - exists w, others. repeat split; assumption.
  - exists w. repeat split; assumption.
  - exact IH.
Qed.

(** With timers that take as long as asked, a window of [n] intervals
    holds [n] queries at most. *)
Lemma polling_query_bound (w : World) (r : Result (option Event)) (w' : World) :
  timers_honour env ->
  0 < interval ->
  polling env paymaster userOpHash (queryFrom block) deadline interval w r w' ->
  forall n : nat,
    deadline - Date_now w <= Z.of_nat n * interval ->
    (queries (trace w') <= queries (trace w) + n)%nat.
Proof.
  intros Htimer Hpos.
  induction 1 as [w Hge | w first others Hlt Hq | w e Hlt Hq
                  | w r w' Hlt Hq Hrest IH]; intros n Hn.
  - lia.
  - destruct n as [|n]; [simpl in Hn; lia|].
    cbn [after trace]. rewrite queries_app. simpl. lia.
  - destruct n as [|n]; [simpl in Hn; lia|].
    cbn [after trace]. rewrite queries_app. simpl. lia.
  - destruct n as [|n]; [simpl in Hn; lia|].
    assert (Hn' : deadline
                  - Date_now (after env (ActSetTimeout interval)
                                    (after env query w))
                  <= Z.of_nat n * interval).
    { pose proof (Htimer (after env query w) interval) as Ht.
      unfold Date_now, after in *. cbn [clock] in *.
      rewrite Nat2Z.inj_succ, Z.mul_succ_l in Hn. lia. }
    specialize (IH n Hn').
    cbn [after trace] in IH. rewrite !queries_app in IH. simpl in IH. lia.
Qed.

End Polling.

(** X9: [boostWait] returns as soon as a query matches or fails, without
    a retry and without a sleep.  After a successful head fetch, an event
    returned is the first of the answer to the last request made, a
    failure is the failure of the last request made, and that request was
    a log query issued before the deadline; null is returned only when
    the deadline is reached. *)
Theorem boostWait_returns_on_last_query (env : Env) (this : MEVBoostAccount)
    (userOpHash : string) (deadlineMs waitIntervalMs : option Z) (fuel : nat)
    (w : World) (block : Block) (r : Result (option Event)) (w' : World) :
  rpc_getBlock env w "latest" = Ok block ->
  boostWait env this userOpHash deadlineMs waitIntervalMs fuel w
  = Some (r, w') ->
  let deadline := deadline_or_default deadlineMs w in
  let paymaster := address (mevBoostPaymaster this) in
  let filter := SettleUserOp None (Some userOpHash) in
  let query := queryAction this userOpHash block in
  match r with
  | Ok None => deadline <= Date_now w'
  | Ok (Some first) =>
      exists wq others,
        Date_now wq < deadline
        /\ rpc_queryFilter env wq paymaster filter (queryFrom block)
           = Ok (first :: others)
        /\ w' = after env query wq
  | Err e =>
      exists wq,
        Date_now wq < deadline
        /\ rpc_queryFilter env wq paymaster filter (queryFrom block) = Err e
        /\ w' = after env query wq
  end.
Proof.
  intros Hb Hrun deadline paymaster filter query.
  unfold boostWait in Hrun. rewrite request_run, Hb in Hrun.
  apply boostWait_loop_polling in Hrun.
  apply (polling_last _ _ _ _ _ _ _ _ _ Hrun).
Qed.

Lemma boostWait_returns_on_last_query_witness :
  exists wq,
    option_map snd
      (boostWait Sample.mainnet Sample.builder Sample.opHash None None 10
                 (Sample.start 1000))
    = Some (after Sample.mainnet
              (queryAction Sample.builder Sample.opHash {| number := 5000 |}) wq).
Proof.
  destruct (boostWait Sample.mainnet Sample.builder Sample.opHash None None 10
              (Sample.start 1000)) as [[r w']|] eqn:Hrun;
    [|vm_compute in Hrun; discriminate Hrun].
  pose proof (boostWait_returns_on_last_query Sample.mainnet Sample.builder
                Sample.opHash None None 10 (Sample.start 1000) {| number := 5000 |}
                r w' eq_refl Hrun) as H.
  assert (Hr : r = Ok (Some (Sample.settled Sample.opHash))).
  { vm_compute in Hrun. inversion Hrun. reflexivity. }
  rewrite Hr in H. cbv zeta in H.
  destruct H as (wq & others & _ & _ & Hw).
  exists wq. simpl. rewrite Hw. reflexivity.
Defined.

(** X10: the deadline bounds the number of queries.  With timers that
    take as long as asked and a positive poll interval, if the time left
    to the deadline once the head is fetched is at most [n] intervals,
    [boostWait] queries the settlement log at most [n] times: six times
    in the default 30 seconds at the default interval of 5 seconds. *)
Theorem boostWait_query_bound (env : Env) (this : MEVBoostAccount)
    (userOpHash : string) (deadlineMs waitIntervalMs : option Z) (fuel : nat)
    (w : World) (block : Block) (r : Result (option Event)) (w' : World)
    (n : nat) :
  timers_honour env ->
  0 < interval_or_default waitIntervalMs ->
  rpc_getBlock env w "latest" = Ok block ->
  deadline_or_default deadlineMs w
  - Date_now (after env (ActGetBlock "latest") w)
  <= Z.of_nat n * interval_or_default waitIntervalMs ->
  boostWait env this userOpHash deadlineMs waitIntervalMs fuel w
  = Some (r, w') ->
  (queries (trace w') <= queries (trace w) + n)%nat.
Proof.
  intros Htimer Hpos Hb Hn Hrun.
  unfold boostWait in Hrun. rewrite request_run, Hb in Hrun.
  apply boostWait_loop_polling in Hrun.
  pose proof (polling_query_bound _ _ _ _ _ _ _ _ _ Htimer Hpos Hrun n Hn)
    as Hq.
  cbn [after trace] in Hq. rewrite queries_app in Hq. simpl in Hq. lia.
Qed.

Lemma sample_timers_honour (reply : Result unit) (n h s : Z) :
  timers_honour (Sample.chain reply n h s).
Proof. intros w ms. simpl. lia. Qed.

Lemma boostWait_query_bound_witness :
  exists r w',
    boostWait (Sample.chain (Err (Sample.SenderAddressResult Sample.account))
                            0 5000 1000000000)
              Sample.builder Sample.opHash None None 10 (Sample.start 1000)
    = Some (r, w')
    /\ (queries (trace w') <= 6)%nat.
Proof.
  destruct (boostWait (Sample.chain (Err (Sample.SenderAddressResult
                                            Sample.account)) 0 5000 1000000000)
              Sample.builder Sample.opHash None None 10 (Sample.start 1000))
    as [[r w']|] eqn:Hrun; [|vm_compute in Hrun; discriminate Hrun].
  exists r, w'. split; [reflexivity|].
  refine (boostWait_query_bound
            (Sample.chain (Err (Sample.SenderAddressResult Sample.account))
                          0 5000 1000000000)
            Sample.builder Sample.opHash None None 10 (Sample.start 1000)
            {| number := 5000 |} r w' 6
            (sample_timers_honour _ _ _ _) _ eq_refl _ Hrun).
  - reflexivity.
  - simpl. lia.
Defined.

(** X11: the head fetch counts against the deadline.  What the clock
    shows once the head is fetched decides whether the settlement log is
    looked at: if the deadline is reached by then, [boostWait] returns
    null without a single query, also with the default deadline; if it is
    not, the first request after the head fetch is a query. *)
Theorem boostWait_first_test_decides (env : Env) (this : MEVBoostAccount)
    (userOpHash : string) (deadlineMs waitIntervalMs : option Z) (fuel : nat)
    (w : World) (block : Block) :
  rpc_getBlock env w "latest" = Ok block ->
  let head := ActGetBlock "latest" in
  let deadline := deadline_or_default deadlineMs w in
  (deadline <= Date_now (after env head w) ->
   boostWait env this userOpHash deadlineMs waitIntervalMs (S fuel) w
   = Some (Ok None, after env head w))
  /\ (Date_now (after env head w) < deadline ->
      forall r w',
        boostWait env this userOpHash deadlineMs waitIntervalMs fuel w
        = Some (r, w') ->
        exists rest,
          trace w' = (trace w ++ head :: queryAction this userOpHash block
                              :: rest)%list).
Proof.
  intros Hb head deadline. split.
  - intros Hge. unfold boostWait. rewrite request_run, Hb.
    rewrite boostWait_loop_step. fold deadline. fold head.
    destruct (Z.ltb_spec (Date_now (after env head w)) deadline); [lia|].
    reflexivity.
  - intros Hlt r w' Hrun.
    unfold boostWait in Hrun. rewrite request_run, Hb in Hrun.
    destruct fuel as [|fuel]; [discriminate Hrun|].
    rewrite boostWait_loop_step in Hrun. fold deadline head in Hrun.
    destruct (Z.ltb_spec (Date_now (after env head w)) deadline); [|lia].
    destruct (rpc_queryFilter env _ _ _ _) as [[|first others]|e].
    + apply boostWait_loop_polling in Hrun.
      destruct (polling_trace _ _ _ _ _ _ _ _ _ Hrun) as [k Hk].
      eexists. rewrite Hk. cbn [after trace].
      rewrite <- !app_assoc. reflexivity.
    + inversion Hrun; subst. exists []. cbn [after trace].
      rewrite <- app_assoc. reflexivity.
    + inversion Hrun; subst. exists []. cbn [after trace].
      rewrite <- app_assoc. reflexivity.
Qed.

Lemma boostWait_first_test_decides_witness :
  boostWait Sample.mainnet Sample.builder Sample.opHash (Some 1005) None 1
            (Sample.start 1000)
  = Some (Ok None,
          after Sample.mainnet (ActGetBlock "latest") (Sample.start 1000)).
Proof.
  refine (proj1 (boostWait_first_test_decides Sample.mainnet Sample.builder
                   Sample.opHash (Some 1005) None 0 (Sample.start 1000)
                   {| number := 5000 |} eq_refl) _).
  simpl. lia.
Defined.
